(** * Fluvius electricity (Belgium): the coordinator, the sensors and the config flow

    A shallow embedding of
    - [custom_components/fluvius_electricity_belgium/sensor.py]
      (the three [native_value] properties),
    - [custom_components/fluvius_electricity_belgium/__init__.py]
      ([FluviusCoordinator] and [_fetch_bearer_token_sync]),
    - [custom_components/fluvius_electricity_belgium/config_flow.py]
      ([FluviusConfigFlow.async_step_user]),
    - [custom_components/fluvius_electricity_belgium/const.py],
    followed by the properties proved about them.

    Conventions.  A Python [str] is a [string]: one [ascii] per character
    (code points below 256).  A Python [float] is a binary64 [float] of the
    kernel, so sums are the sums the interpreter computes.  A Python call that
    can raise returns an [outcome]; [None] is [JNull] inside JSON data and
    [None : option _] elsewhere. *)

From Stdlib Require Import ZArith List String Ascii Bool Lia.
From Stdlib Require Import PrimFloat FloatOps SpecFloat.
From Stdlib Require Import DecimalString.
Import ListNotations.

Set Warnings "-register-all,-inexact-float".

Open Scope string_scope.
Open Scope list_scope.
Open Scope Z_scope.

(* ================================================================== *)
(** ** Outcomes of Python calls *)

(** A call returns a value or raises an exception of type [E]. *)
Inductive outcome (E A : Type) : Type :=
| Return (a : A)
| Raise (e : E).
Arguments Return {E A} a.
Arguments Raise {E A} e.

Definition bind {E A B} (m : outcome E A) (k : A -> outcome E B) : outcome E B :=
  match m with
  | Return a => k a
  | Raise e => Raise e
  end.

Declare Scope outcome_scope.
Delimit Scope outcome_scope with outcome.
Notation "x <- m ;; k" := (bind m (fun x => k))
  (at level 100, m at next level, right associativity) : outcome_scope.
Open Scope outcome_scope.

(** [try: body except Exception: handler]. *)
Definition try_except {E A} (body : outcome E A) (handler : E -> outcome E A) : outcome E A :=
  match body with
  | Return a => Return a
  | Raise e => handler e
  end.

(** [for x in l: s = body(s, x)], left to right; an exception leaves the loop. *)
Fixpoint for_each {E S A} (body : S -> A -> outcome E S) (l : list A) (s : S) : outcome E S :=
  match l with
  | [] => Return s
  | x :: rest => s' <- body s x ;; for_each body rest s'
  end.

(* ================================================================== *)
(** ** Python strings *)

Definition str_truthy (s : string) : bool :=
  match s with EmptyString => false | String _ _ => true end.

(** [a or b] on an optional string: [None] and [""] are falsy. *)
Definition str_or (a : option string) (b : string) : string :=
  match a with
  | Some s => if str_truthy s then s else b
  | None => b
  end.

(** [needle in s]. *)
Fixpoint contains (needle s : string) : bool :=
  if prefix needle s then true
  else match s with
       | EmptyString => false
       | String _ rest => contains needle rest
       end.

(** [s.rstrip(chars)] for the characters selected by [strip]. *)
Fixpoint rstrip_by (strip : ascii -> bool) (s : string) : string :=
  match s with
  | EmptyString => EmptyString
  | String c rest =>
      match rstrip_by strip rest with
      | EmptyString => if strip c then EmptyString else String c EmptyString
      | rest' => String c rest'
      end
  end.

Fixpoint lstrip_by (strip : ascii -> bool) (s : string) : string :=
  match s with
  | EmptyString => EmptyString
  | String c rest => if strip c then lstrip_by strip rest else s
  end.

(** [str.isspace] on the characters below 256. *)
Definition is_space (c : ascii) : bool :=
  let n := N_of_ascii c in
  (((9 <=? n) && (n <=? 13)) || ((28 <=? n) && (n <=? 32)) || (n =? 133) || (n =? 160))%N.

(** [s.strip()]. *)
Definition strip (s : string) : string := rstrip_by is_space (lstrip_by is_space s).

Definition slash : ascii := "/"%char.

(** [s.rstrip("/")]. *)
Definition rstrip_slash (s : string) : string :=
  rstrip_by (fun c => Ascii.eqb c slash) s.

(** [s[:n]]. *)
Definition str_take (n : nat) (s : string) : string := substring 0 n s.

(** [str(z)] for an [int]. *)
Definition str_of_int (z : Z) : string := NilZero.string_of_int (Z.to_int z).

Definition ascii_lower (c : ascii) : ascii :=
  let n := N_of_ascii c in
  if ((65 <=? n) && (n <=? 90))%N then ascii_of_N (n + 32) else c.

Fixpoint str_lower (s : string) : string :=
  match s with
  | EmptyString => EmptyString
  | String c rest => String (ascii_lower c) (str_lower rest)
  end.

(* ================================================================== *)
(** ** Python floats *)

(** [float(z)] for an [int]: the nearest binary64, ties to even; a value too
    large for a binary64 comes out as an infinity here and is turned into
    [OverflowError] by the caller. *)
Definition float_of_int (z : Z) : spec_float := binary_normalize prec emax z 0 false.

(** [a / b] rounded to the nearest integer, ties to even ([0 < b]). *)
Definition div_half_even (a b : Z) : Z :=
  let q := a / b in
  match 2 * (a mod b) ?= b with
  | Lt => q
  | Gt => q + 1
  | Eq => if Z.even q then q else q + 1
  end.

(** [round(x, 3)] on a float: the exact binary value is rounded to three
    decimals (ties to even) and the decimal is read back as the nearest
    binary64.  Infinities, NaN, zeros and integral values round to themselves. *)
Definition round3 (x : float) : float :=
  match Prim2SF x with
  | S754_finite s m e =>
      if 0 <=? e then x
      else match div_half_even (Zpos m * 1000) (2 ^ (- e)) with
           | Zpos n => SF2Prim (SFdiv prec emax (S754_finite s n 0) (S754_finite false 1000 0))
           | _ => SF2Prim (S754_zero s)
           end
  | _ => x
  end.

(** [a == b] on floats, on their decoded values: the two zeros are equal and
    NaN equals nothing. *)
Definition float_eqb (a b : float) : bool := SFeqb (Prim2SF a) (Prim2SF b).

(* ================================================================== *)
(** ** JSON data as Python holds it *)

(** The value [resp.json()] yields: [None], [bool], [int], [float], [str],
    [list], and [dict] with [str] keys (an association list in insertion
    order; a key occurs once). *)
Inductive json : Type :=
| JNull
| JBool (b : bool)
| JInt (z : Z)
| JFloat (f : float)
| JStr (s : string)
| JList (items : list json)
| JDict (fields : list (string * json)).

(** The exceptions the built-in operations of the sensors can raise. *)
Inductive pyerr : Type :=
| AttributeError
| TypeError
| ValueError
| OverflowError.

(** [float(s)] on a [str] is the interpreter's own parser of numeric text; the
    sensors only depend on whether it yields a float or raises [ValueError]. *)
Class PyFloatParser : Type := { float_of_str : string -> option float }.

(** [d.get(key)]: [None] when the key is absent. *)
Fixpoint dict_get (fields : list (string * json)) (key : string) : option json :=
  match fields with
  | [] => None
  | (k, v) :: rest => if String.eqb k key then Some v else dict_get rest key
  end.

(** [d.get(key, default)]. *)
Definition dict_get_default (fields : list (string * json)) (key : string) (default : json) : json :=
  match dict_get fields key with
  | Some v => v
  | None => default
  end.

(** [bool(v)]. *)
Definition truthy (v : json) : bool :=
  match v with
  | JNull => false
  | JBool b => b
  | JInt z => negb (z =? 0)
  | JFloat f => negb (float_eqb f 0%float)
  | JStr s => str_truthy s
  | JList items => match items with [] => false | _ :: _ => true end
  | JDict fields => match fields with [] => false | _ :: _ => true end
  end.

(** [a or b]. *)
Definition py_or (a b : json) : json := if truthy a then a else b.

Fixpoint str_chars (s : string) : list json :=
  match s with
  | EmptyString => []
  | String c rest => JStr (String c EmptyString) :: str_chars rest
  end.

(** [iter(v)]: the elements of a list, the keys of a dict, the characters of
    a string; anything else is not iterable. *)
Definition py_iter (v : json) : outcome pyerr (list json) :=
  match v with
  | JList items => Return items
  | JDict fields => Return (map (fun kv => JStr (fst kv)) fields)
  | JStr s => Return (str_chars s)
  | JNull | JBool _ | JInt _ | JFloat _ => Raise TypeError
  end.

(** [float(v)]. *)
Definition py_float `{PyFloatParser} (v : json) : outcome pyerr float :=
  match v with
  | JFloat f => Return f
  | JInt z =>
      match float_of_int z with
      | S754_infinity _ => Raise OverflowError
      | sf => Return (SF2Prim sf)
      end
  | JBool b => Return (if b then 1%float else 0%float)
  | JStr s =>
      match float_of_str s with
      | Some f => Return f
      | None => Raise ValueError
      end
  | JNull | JList _ | JDict _ => Raise TypeError
  end.

(** [v == n] for the category codes [n = 1] and [n = 2] (an [int] literal
    that a binary64 holds exactly): equal ints, the float of that value and,
    for [1], [True]. *)
Definition py_eq_int (v : json) (n : Z) : bool :=
  match v with
  | JInt z => z =? n
  | JFloat f => SFeqb (Prim2SF f) (float_of_int n)
  | JBool b => (if b then 1 else 0) =? n
  | JNull | JStr _ | JList _ | JDict _ => false
  end.

(** [day.get("v", [])]: [day] has a [get] only when it is a dict. *)
Definition day_readings (day : json) : outcome pyerr json :=
  match day with
  | JDict fields => Return (dict_get_default fields "v" (JList []))
  | _ => Raise AttributeError
  end.

(* ================================================================== *)
(** ** sensor.py *)

(** The body of the inner loop of [FluviusConsumptionSensor.native_value]. *)
Definition consumption_reading `{PyFloatParser} (total : float) (reading : json)
  : outcome pyerr float :=
  match reading with
  | JDict r =>
      match dict_get r "v" with
      | None | Some JNull => Return total
      | Some val =>
          if py_eq_int (dict_get_default r "dc" (JInt 1)) 1
          then x <- py_float val ;; Return (total + x)%float
          else Return total
      end
  | _ => Return total
  end.

(** The body of the inner loop of [FluviusInjectionSensor.native_value]. *)
Definition injection_reading `{PyFloatParser} (total : float) (reading : json)
  : outcome pyerr float :=
  match reading with
  | JDict r =>
      match dict_get r "v" with
      | None | Some JNull => Return total
      | Some val =>
          if py_eq_int (dict_get_default r "dc" (JInt 0)) 2
          then x <- py_float val ;; Return (total + x)%float
          else Return total
      end
  | _ => Return total
  end.

(** The body of the inner loop of [FluviusNetSensor.native_value], on the
    pair [(cons, inj)]. *)
Definition net_reading `{PyFloatParser} (acc : float * float) (reading : json)
  : outcome pyerr (float * float) :=
  match reading with
  | JDict r =>
      match dict_get r "v" with
      | None | Some JNull => Return acc
      | Some val =>
          let dc := dict_get_default r "dc" (JInt 0) in
          if py_eq_int dc 1
          then x <- py_float val ;; Return (fst acc + x, snd acc)%float
          else if py_eq_int dc 2
          then x <- py_float val ;; Return (fst acc, snd acc + x)%float
          else Return acc
      end
  | _ => Return acc
  end.

(** [for reading in day.get("v", []): body], for one [day]. *)
Definition sum_day {S} (body : S -> json -> outcome pyerr S) (acc : S) (day : json)
  : outcome pyerr S :=
  readings <- day_readings day ;;
  items <- py_iter readings ;;
  for_each body items acc.

(** [for day in data: for reading in day.get("v", []): body]. *)
Definition sum_days {S} (body : S -> json -> outcome pyerr S) (data : json) (init : S)
  : outcome pyerr S :=
  days <- py_iter data ;;
  for_each (sum_day body) days init.

(** [FluviusConsumptionSensor.native_value], from [coordinator.data]: a float
    or [None]. *)
Definition FluviusConsumptionSensor_native_value `{PyFloatParser} (coordinator_data : json)
  : outcome pyerr (option float) :=
  let data := py_or coordinator_data (JList []) in
  if negb (truthy data) then Return None
  else try_except
         (total <- sum_days consumption_reading data 0%float ;;
          Return (Some (round3 total)))
         (fun err => Return None).

(** [FluviusInjectionSensor.native_value]. *)
Definition FluviusInjectionSensor_native_value `{PyFloatParser} (coordinator_data : json)
  : outcome pyerr (option float) :=
  let data := py_or coordinator_data (JList []) in
  if negb (truthy data) then Return None
  else try_except
         (total <- sum_days injection_reading data 0%float ;;
          Return (Some (round3 total)))
         (fun err => Return None).

(** [FluviusNetSensor.native_value]. *)
Definition FluviusNetSensor_native_value `{PyFloatParser} (coordinator_data : json)
  : outcome pyerr (option float) :=
  let data := py_or coordinator_data (JList []) in
  if negb (truthy data) then Return None
  else try_except
         (acc <- sum_days net_reading data (0%float, 0%float) ;;
          let net := (fst acc - snd acc)%float in
          Return (Some (round3 net)))
         (fun err => Return None).

(** A day-bucket with no ["v"] key. *)
Definition day_without_v (day : json) : Prop :=
  exists fields, day = JDict fields /\ dict_get fields "v" = None.

(** A reading the loops pass over: not a dict, or a dict whose ["v"] is
    absent or [None]. *)
Definition skipped_reading (reading : json) : Prop :=
  match reading with
  | JDict r => dict_get r "v" = None \/ dict_get r "v" = Some JNull
  | _ => True
  end.

(** A reading that is passed over or carries a category code. *)
Definition reading_has_dc (reading : json) : Prop :=
  match reading with
  | JDict r => dict_get r "v" = None \/ dict_get r "v" = Some JNull \/ dict_get r "dc" <> None
  | _ => True
  end.

(** Every reading the loops visit in [data] satisfies [P]. *)
Definition all_readings (P : json -> Prop) (data : json) : Prop :=
  forall days, py_iter data = Return days ->
    Forall (fun day => forall readings items,
                day_readings day = Return readings ->
                py_iter readings = Return items ->
                Forall P items) days.

(** A parser under which no text is numeric: enough to run the sensors on
    payloads whose values are numbers. *)
Definition no_numeric_text : PyFloatParser := {| float_of_str := fun _ => None |}.

(** The payload of [tests/test_coordinator.py]: one day-bucket with a
    consumption reading of 1.5 and an injection reading of 0.6. *)
Definition sample_api_response : json :=
  JList [JDict [("d", JStr "2024-01-01T00:00:00+00:00");
                ("de", JStr "2024-01-01T00:15:00+00:00");
                ("v", JList [JDict [("dc", JInt 1); ("t", JInt 1); ("st", JInt 0);
                                    ("v", JFloat 1.5%float); ("vs", JInt 2); ("u", JInt 3)];
                             JDict [("dc", JInt 2); ("t", JInt 1); ("st", JInt 0);
                                    ("v", JFloat 0.6%float); ("vs", JInt 2); ("u", JInt 3)]])]].

(** A payload whose only reading has no category code. *)
Definition payload_without_dc : json :=
  JList [JDict [("v", JList [JDict [("v", JFloat 1.5%float)]])]].

(* ================================================================== *)
(** ** const.py *)

Definition DOMAIN : string := "fluvius_electricity_belgium".
Definition DEFAULT_NAME : string := "Fluvius Electricity".
Definition DEFAULT_UPDATE_INTERVAL : Z := 300.

Definition CONF_METER_ID : string := "meter_id".
Definition CONF_EAN : string := "ean".
Definition CONF_BEARER_TOKEN : string := "bearer_token".
Definition CONF_API_BASE : string := "api_base".
Definition CONF_USERNAME : string := "username".
Definition CONF_PASSWORD : string := "password".
Definition CONF_GRANULARITY : string := "granularity".
Definition CONF_TIME_WINDOW_HOURS : string := "time_window_hours".

Definition DEFAULT_GRANULARITY : string := "1".
Definition DEFAULT_TIME_WINDOW_HOURS : Z := 24.

Definition GRANULARITY_CHOICES : list (string * string) :=
  [("1", "15 minutes"); ("2", "30 minutes"); ("3", "Daily (per day)")].

(* ================================================================== *)
(** ** __init__.py: exceptions, clock and HTTP *)

(** [UpdateFailed]; any other [Exception], with its class name and
    [str(err)]; or an exception that is not an [Exception] (a
    [BaseException] such as [asyncio.CancelledError]), which no
    [except Exception] clause catches. *)
Inductive exn : Type :=
| UpdateFailed (msg : string)
| Exception (cls : string) (msg : string)
| BaseException (cls : string) (msg : string).

Definition exn_str (err : exn) : string :=
  match err with
  | UpdateFailed msg => msg
  | Exception _ msg => msg
  | BaseException _ msg => msg
  end.

(** [isinstance(err, Exception)]. *)
Definition is_exception (err : exn) : bool :=
  match err with
  | UpdateFailed _ => true
  | Exception _ _ => true
  | BaseException _ _ => false
  end.

(** [v] is truthy: neither [None] nor [""]. *)
Definition opt_truthy (v : option string) : bool :=
  match v with
  | Some s => str_truthy s
  | None => false
  end.

(** An aware [datetime] in UTC is its number of microseconds since
    1970-01-01T00:00:00Z; a [timedelta] is a number of microseconds. *)
Definition datetime_min : Z := -62135596800000000.
Definition datetime_max : Z := 253402300799999999.
Definition microseconds_per_hour : Z := 3600000000.
Definition microseconds_per_day : Z := 86400000000.
Definition max_delta_days : Z := 999999999.

Definition date_out_of_range : exn := Exception "OverflowError" "date value out of range".

(** [timedelta(hours=h)]: the day count must stay within [max_delta_days]. *)
Definition timedelta_hours (h : Z) : outcome exn Z :=
  let us := h * microseconds_per_hour in
  let days := us / microseconds_per_day in
  if (- max_delta_days <=? days) && (days <=? max_delta_days)
  then Return us
  else Raise (Exception "OverflowError" "timedelta out of range").

(** [dt - delta]: the result must be a date of the years 1 to 9999. *)
Definition datetime_sub (dt delta : Z) : outcome exn Z :=
  let r := dt - delta in
  if (datetime_min <=? r) && (r <=? datetime_max) then Return r else Raise date_out_of_range.

(** The text [strftime("%Y-%m-%dT%H:%M:%S.000%z")] prints for a local
    datetime: the wall-clock second (counted from 1970-01-01T00:00:00 on the
    local calendar; the microseconds are not printed) and the UTC offset in
    seconds.  The two numbers determine the text and the text determines
    them; the layout of the digits is not modelled. *)
Record stamp : Type := { wall_second : Z; utc_offset : Z }.

(** The instant a [stamp] names, in seconds since the epoch. *)
Definition stamp_instant (s : stamp) : Z := wall_second s - utc_offset s.

(** A request the browser session captured ([driver.requests]). *)
Record captured_request : Type := { req_url : string; req_headers : list (string * string) }.

(** What running the browser session up to the scan comes to: the selenium
    imports fail, a step raises an [Exception] of class [cls] (time-out,
    missing element, driver error), or the session reaches the scan with the
    requests captured so far. *)
Inductive browser_run : Type :=
| ImportFailed
| SessionRaised (cls : string) (msg : string)
| Captured (requests : list captured_request).

(** The query parameters of the fetch. *)
Record query_params : Type := {
  historyFrom : stamp;
  historyUntil : stamp;
  param_granularity : string;
  asServiceProvider : string;
  meterSerialNumber : string
}.

Record http_request : Type := {
  url : string;
  params : query_params;
  headers : list (string * string);
  timeout : Z
}.

(** A response: its status, and what [resp.text()] and [resp.json()] yield
    when the body is read. *)
Record http_response : Type := {
  status : Z;
  text : outcome exn string;
  resp_json : outcome exn json
}.

(** What one update cycle meets outside the coordinator: the browser session
    for a given username and password, the clock, the local time zone (its
    UTC offset in seconds at a given UTC second) and [session.get] (a
    response, or the exception it raises). *)
Record world : Type := {
  browser : string -> string -> browser_run;
  now : Z;
  local_utcoffset : Z -> Z;
  http_get : http_request -> outcome exn http_response
}.

(** [fmt(dt)]: [dt.astimezone().strftime("%Y-%m-%dT%H:%M:%S.000%z")].  The
    local zone is a fixed-offset [timezone], whose offset must lie strictly
    within 24 hours of UTC. *)
Definition fmt (w : world) (dt : Z) : outcome exn stamp :=
  let second := dt / 1000000 in
  let offset := local_utcoffset w second in
  if (-86400 <? offset) && (offset <? 86400) then
    let local := dt + offset * 1000000 in
    if (datetime_min <=? local) && (local <=? datetime_max)
    then Return {| wall_second := second + offset; utc_offset := offset |}
    else Raise date_out_of_range
  else Raise (Exception "ValueError" "offset must be a timedelta strictly between -timedelta(hours=24) and timedelta(hours=24)").

(* ================================================================== *)
(** ** __init__.py: _fetch_bearer_token_sync *)

(** [request.headers.get(name)]: header names compare without case; the
    first match is returned. *)
Fixpoint headers_get (hs : list (string * string)) (name : string) : option string :=
  match hs with
  | [] => None
  | (k, v) :: rest =>
      if String.eqb (str_lower k) (str_lower name) then Some v else headers_get rest name
  end.

(** The scan over [driver.requests]. *)
Fixpoint scan_requests (requests : list captured_request) : option string :=
  match requests with
  | [] => None
  | request :: rest =>
      if contains "/api/" (req_url request)
         && opt_truthy (headers_get (req_headers request) "Authorization")
      then
        match headers_get (req_headers request) "Authorization" with
        | Some auth_header =>
            if str_truthy auth_header && prefix "Bearer" auth_header
            then Some auth_header
            else scan_requests rest
        | None => scan_requests rest
        end
      else scan_requests rest
  end.

Definition _fetch_bearer_token_sync (run : string -> string -> browser_run)
           (username password : string) : option string :=
  match run username password with
  | ImportFailed => None
  | SessionRaised _ _ => None
  | Captured requests => scan_requests requests
  end.

(** A captured request the scan accepts. *)
Definition qualifies (request : captured_request) : bool :=
  contains "/api/" (req_url request)
  && match headers_get (req_headers request) "Authorization" with
     | Some auth_header => prefix "Bearer" auth_header
     | None => false
     end.

(* ================================================================== *)
(** ** __init__.py: FluviusCoordinator *)

(** The attributes [__init__] sets.  [_bearer_token] is the in-memory token
    cache. *)
Record FluviusCoordinator : Type := {
  name : string;
  _username : option string;
  _password : option string;
  _bearer_token : option string;
  ean : option string;
  meter_id : option string;
  api_base : string;
  granularity : string;
  time_window_hours : Z;
  _last_data : option json
}.

(** [x or default] on an optional [int]: [None] and [0] are falsy. *)
Definition int_or (x : option Z) (default : Z) : Z :=
  match x with
  | Some z => if z =? 0 then default else z
  | None => default
  end.

(** [FluviusCoordinator.__init__]. *)
Definition __init__ (name : string) (username password ean meter_id api_base granularity : option string)
           (time_window_hours : option Z) (update_interval : Z) : FluviusCoordinator :=
  {| name := name;
     _username := username;
     _password := password;
     _bearer_token := None;
     ean := ean;
     meter_id := meter_id;
     api_base := rstrip_slash (str_or api_base "https://mijn.fluvius.be");
     granularity := str_or granularity DEFAULT_GRANULARITY;
     time_window_hours := int_or time_window_hours DEFAULT_TIME_WINDOW_HOURS;
     _last_data := None |}.

(** What a cycle does that the outside can see, in order. *)
Inductive event : Type :=
| EvAcquire (username password : string)
| EvGet (request : http_request).

(** The result of a method: what it returns or raises, the coordinator after
    it, and the events it caused. *)
Record result (A : Type) : Type := {
  res_outcome : outcome exn A;
  res_self : FluviusCoordinator;
  res_trace : list event
}.
Arguments res_outcome {A} r.
Arguments res_self {A} r.
Arguments res_trace {A} r.

(** A method body: a function of the coordinator it runs on. *)
Definition action (A : Type) : Type := FluviusCoordinator -> result A.

Definition ret {A} (a : A) : action A :=
  fun self => {| res_outcome := Return a; res_self := self; res_trace := [] |}.

Definition raise {A} (err : exn) : action A :=
  fun self => {| res_outcome := Raise err; res_self := self; res_trace := [] |}.

Definition and_then {A B} (m : action A) (k : A -> action B) : action B :=
  fun self =>
    let r := m self in
    match res_outcome r with
    | Return a =>
        let r' := k a (res_self r) in
        {| res_outcome := res_outcome r';
           res_self := res_self r';
           res_trace := res_trace r ++ res_trace r' |}
    | Raise err =>
        {| res_outcome := Raise err; res_self := res_self r; res_trace := res_trace r |}
    end.

(** [try: m except Exception as err: handler(err)]; the handler sees the
    coordinator as the body left it, and an exception that is not an
    [Exception] passes through. *)
Definition catch {A} (m : action A) (handler : exn -> action A) : action A :=
  fun self =>
    let r := m self in
    match res_outcome r with
    | Return a => r
    | Raise err =>
        if is_exception err then
          let r' := handler err (res_self r) in
          {| res_outcome := res_outcome r';
             res_self := res_self r';
             res_trace := res_trace r ++ res_trace r' |}
        else r
    end.

Definition get_self : action FluviusCoordinator :=
  fun self => {| res_outcome := Return self; res_self := self; res_trace := [] |}.

Definition emit (ev : event) : action unit :=
  fun self => {| res_outcome := Return tt; res_self := self; res_trace := [ev] |}.

(** A call that only returns or raises. *)
Definition lift {A} (o : outcome exn A) : action A :=
  fun self => {| res_outcome := o; res_self := self; res_trace := [] |}.

Declare Scope action_scope.
Delimit Scope action_scope with action.
Notation "x <~ m ;; k" := (and_then m (fun x => k))
  (at level 100, m at next level, right associativity) : action_scope.
Notation "m ;;; k" := (and_then m (fun _ => k))
  (at level 100, right associativity) : action_scope.
Open Scope action_scope.

(** [FluviusCoordinator._set_bearer_token]. *)
Definition _set_bearer_token (token : option string) : action unit :=
  fun self =>
    {| res_outcome := Return tt;
       res_self := {| name := name self;
                      _username := _username self;
                      _password := _password self;
                      _bearer_token := token;
                      ean := ean self;
                      meter_id := meter_id self;
                      api_base := api_base self;
                      granularity := granularity self;
                      time_window_hours := time_window_hours self;
                      _last_data := _last_data self |};
       res_trace := [] |}.

(** [self._last_data = data]. *)
Definition set_last_data (data : json) : action unit :=
  fun self =>
    {| res_outcome := Return tt;
       res_self := {| name := name self;
                      _username := _username self;
                      _password := _password self;
                      _bearer_token := _bearer_token self;
                      ean := ean self;
                      meter_id := meter_id self;
                      api_base := api_base self;
                      granularity := granularity self;
                      time_window_hours := time_window_hours self;
                      _last_data := Some data |};
       res_trace := [] |}.

(** The string a truthy optional string holds. *)
Definition the_str (v : option string) : string :=
  match v with
  | Some s => s
  | None => ""
  end.

(** [FluviusCoordinator._async_get_bearer_token_if_needed]. *)
Definition _async_get_bearer_token_if_needed (w : world) : action string :=
  self <~ get_self ;;
  if opt_truthy (_bearer_token self) then ret (the_str (_bearer_token self))
  else if negb (opt_truthy (_username self)) || negb (opt_truthy (_password self))
  then raise (UpdateFailed "No username/password configured to acquire token")
  else
    let username := the_str (_username self) in
    let password := the_str (_password self) in
    emit (EvAcquire username password) ;;;
    let token := _fetch_bearer_token_sync (browser w) username password in
    if negb (opt_truthy token)
    then raise (UpdateFailed "Failed to retrieve bearer token using provided credentials")
    else _set_bearer_token token ;;; ret (the_str token).

(** [until = datetime.now(timezone.utc)] and
    [since = until - timedelta(hours=self.time_window_hours)]. *)
Definition polling_window (self : FluviusCoordinator) (w : world) : outcome exn (Z * Z) :=
  let until := now w in
  delta <- timedelta_hours (time_window_hours self) ;;
  since <- datetime_sub until delta ;;
  Return (since, until).

(** The [params] dictionary. *)
Definition build_params (self : FluviusCoordinator) (w : world) (since until : Z)
  : outcome exn query_params :=
  from <- fmt w since ;;
  to <- fmt w until ;;
  Return {| historyFrom := from;
            historyUntil := to;
            param_granularity := granularity self;
            asServiceProvider := "false";
            meterSerialNumber := the_str (meter_id self) |}.

(** The [url] and [headers] of the fetch, and the request as a whole. *)
Definition build_url (self : FluviusCoordinator) : string :=
  (api_base self ++ "/verbruik/api/meter-measurement-history/" ++ the_str (ean self))%string.

Definition build_headers (token : string) : list (string * string) :=
  [("Authorization", token); ("Accept", "application/json");
   ("User-Agent", "HomeAssistant/Integration")].

Definition build_request (self : FluviusCoordinator) (token : string) (p : query_params)
  : http_request :=
  {| url := build_url self; params := p; headers := build_headers token; timeout := 60 |}.

(** The message of the failure on a status other than 200. *)
Definition http_failure (status_code : Z) (body : string) : exn :=
  UpdateFailed ("HTTP " ++ str_of_int status_code ++ ": " ++ str_take 300 body)%string.

(** The part of [_async_update_data] that follows the token: the window, the
    request and the handling of the response. *)
Definition fetch_with_token (w : world) (token : string) : action json :=
  self <~ get_self ;;
  window <~ lift (polling_window self w) ;;
  p <~ lift (build_params self w (fst window) (snd window)) ;;
  let request := build_request self token p in
  emit (EvGet request) ;;;
  resp <~ lift (http_get w request) ;;
  body <~ lift (text resp) ;;
  if negb (status resp =? 200) then
    (if status resp =? 401 then _set_bearer_token None else ret tt) ;;;
    raise (http_failure (status resp) body)
  else
    data <~ catch (lift (resp_json resp))
                  (fun err => raise (UpdateFailed ("Invalid JSON response: " ++ exn_str err)%string)) ;;
    set_last_data data ;;;
    ret data.

(** The two [except] clauses that close [_async_update_data]: an
    [UpdateFailed] is raised again, any other [Exception] is wrapped in one;
    what is not an [Exception] is not caught and leaves as it is. *)
Definition as_update_failed (err : exn) : exn :=
  match err with
  | UpdateFailed _ => err
  | Exception _ _ => UpdateFailed ("Error fetching Fluvius data: " ++ exn_str err)%string
  | BaseException _ _ => err
  end.

(** The [except Exception] around [resp.json()]. *)
Definition as_invalid_json (err : exn) : exn :=
  if is_exception err
  then UpdateFailed ("Invalid JSON response: " ++ exn_str err)%string
  else err.

(** [FluviusCoordinator._async_update_data]: one update cycle, from the
    [try] on; [async_get_clientsession] before it hands out the host's
    session, whose [get] is the world's [http_get]. *)
Definition _async_update_data (w : world) : action json :=
  catch
    (token <~ _async_get_bearer_token_if_needed w ;;
     fetch_with_token w token)
    (fun err => raise (as_update_failed err)).

(** The coordinators that exist: one built by [__init__], then run through
    any number of update cycles. *)
Inductive reachable : FluviusCoordinator -> Prop :=
| reach_init name username password ean meter_id api_base granularity twh interval :
    reachable (__init__ name username password ean meter_id api_base granularity twh interval)
| reach_cycle self w :
    reachable self -> reachable (res_self (_async_update_data w self)).

(** The coordinator of [tests/test_coordinator.py]. *)
Definition test_coordinator : FluviusCoordinator :=
  __init__ "test" (Some "user@example.com") (Some "pass") (Some "5414XXXXXXXXXXXXX")
           (Some "1SAG1111111111") (Some "https://mijn.fluvius.be") (Some "1") (Some 1) 60.

(** A world in which the browser session captures one API request carrying
    ["Bearer faketoken"], the clock reads 2023-11-14T22:13:20Z, local time is
    UTC+1 and the API answers every request with [status_code] and the
    sample payload. *)
Definition test_world (status_code : Z) : world :=
  {| browser := fun _ _ =>
       Captured [ {| req_url := "https://mijn.fluvius.be/verbruik/api/meters";
                     req_headers := [("Accept", "application/json");
                                     ("Authorization", "Bearer faketoken")] |} ];
     now := 1700000000000000;
     local_utcoffset := fun _ => 3600;
     http_get := fun _ =>
       Return {| status := status_code;
                 text := Return "response body";
                 resp_json := Return sample_api_response |} |}.

(** The cycle issued a request and [session.get] answered it with [resp]. *)
Definition cycle_response (w : world) (self : FluviusCoordinator) (resp : http_response) : Prop :=
  exists request,
    In (EvGet request) (res_trace (_async_update_data w self)) /\
    http_get w request = Return resp.


(** The last character of a string. *)
Fixpoint str_last (s : string) : option ascii :=
  match s with
  | EmptyString => None
  | String c EmptyString => Some c
  | String _ rest => str_last rest
  end.

(** Two coordinators with the same settings: they differ at most in the
    token cache and the last payload. *)
Definition same_settings (a b : FluviusCoordinator) : Prop :=
  name a = name b /\
  _username a = _username b /\
  _password a = _password b /\
  ean a = ean b /\
  meter_id a = meter_id b /\
  api_base a = api_base b /\
  granularity a = granularity b /\
  time_window_hours a = time_window_hours b.

(* ================================================================== *)
(** ** config_flow.py *)

(** [d.get(key)] on a dict of strings. *)
Fixpoint str_dict_get (d : list (string * string)) (key : string) : option string :=
  match d with
  | [] => None
  | (k, v) :: rest => if String.eqb k key then Some v else str_dict_get rest key
  end.

Definition GRAN_LABELS : list string := map snd GRANULARITY_CHOICES.

Definition _LABEL_TO_KEY : list (string * string) :=
  map (fun kv => (snd kv, fst kv)) GRANULARITY_CHOICES.

(** The form's fields as the schema hands them over; [None] is a key that is
    absent (or, for the text fields, [None]). *)
Record user_input : Type := {
  ui_name : option string;
  ui_username : option string;
  ui_password : option string;
  ui_ean : option string;
  ui_meter_id : option string;
  ui_api_base : option string;
  ui_granularity : option string;
  ui_time_window_hours : option Z
}.

(** A value stored in a config entry. *)
Inductive conf_value : Type :=
| CStr (s : string)
| CInt (z : Z).

Inductive flow_result : Type :=
| ShowForm (step_id : string) (errors : list (string * string))
| CreateEntry (title : string) (data : list (string * conf_value)).

(** [_validate_token]: [True] on a 200 whose body parses as JSON. *)
Definition _validate_token (w : world) (token ean api_base : string) : outcome exn bool :=
  if negb (str_truthy token) || negb (str_truthy (strip token)) then Return false
  else
    let until := now w in
    delta <- timedelta_hours 1 ;;
    since <- datetime_sub until delta ;;
    from <- fmt w since ;;
    to <- fmt w until ;;
    let request :=
      {| url := (rstrip_slash api_base ++ "/verbruik/api/meter-measurement-history/" ++ ean)%string;
         params := {| historyFrom := from;
                      historyUntil := to;
                      param_granularity := "1";
                      asServiceProvider := "false";
                      meterSerialNumber := "" |};
         headers := build_headers token;
         timeout := 15 |} in
    match http_get w request with
    | Raise err => if is_exception err then Return false else Raise err
    | Return resp =>
        if negb (status resp =? 200) then Return false
        else match resp_json resp with
             | Return _ => Return true
             | Raise err => if is_exception err then Return false else Raise err
             end
    end.

(** The [data] dictionary handed to [async_create_entry]. *)
Definition entry_data (title username password ean meter_id api_base gran_key : string)
           (time_window : Z) : list (string * conf_value) :=
  [("name", CStr title);
   (CONF_USERNAME, CStr username);
   (CONF_PASSWORD, CStr password);
   (CONF_EAN, CStr ean);
   (CONF_METER_ID, CStr meter_id);
   (CONF_API_BASE, CStr api_base);
   (CONF_GRANULARITY, CStr gran_key);
   (CONF_TIME_WINDOW_HOURS, CInt time_window)].

(** [FluviusConfigFlow.async_step_user]. *)
Definition async_step_user (w : world) (input : option user_input) : outcome exn flow_result :=
  match input with
  | None => Return (ShowForm "user" [])
  | Some ui =>
      let username := strip (str_or (ui_username ui) "") in
      let password := strip (str_or (ui_password ui) "") in
      let ean := strip (str_or (ui_ean ui) "") in
      let api_base := strip (str_or (ui_api_base ui) "https://mijn.fluvius.be") in
      let gran_label := ui_granularity ui in
      let time_window :=
        match ui_time_window_hours ui with
        | Some z => z
        | None => DEFAULT_TIME_WINDOW_HOURS
        end in
      let meter_id := strip (str_or (ui_meter_id ui) "") in
      if negb (str_truthy ean) then Return (ShowForm "user" [("base", "missing_ean")])
      else
        let token := _fetch_bearer_token_sync (browser w) username password in
        if negb (opt_truthy token)
        then Return (ShowForm "user" [("base", "invalid_credentials_or_2fa")])
        else
          ok <- _validate_token w (the_str token) ean api_base ;;
          if negb ok
          then Return (ShowForm "user" [("base", "invalid_credentials_or_token")])
          else
            let gran_key :=
              match gran_label with
              | Some label =>
                  match str_dict_get _LABEL_TO_KEY label with
                  | Some key => key
                  | None => DEFAULT_GRANULARITY
                  end
              | None => DEFAULT_GRANULARITY
              end in
            let title :=
              match ui_name ui with
              | Some n => n
              | None => "Fluvius Electricity"
              end in
            Return (CreateEntry title
                      (entry_data title username password ean meter_id api_base gran_key
                                  time_window))
  end.

(** The form as the user of [tests/test_coordinator.py] would fill it in. *)
Definition test_user_input : user_input :=
  {| ui_name := Some "Fluvius Electricity";
     ui_username := Some "user@example.com";
     ui_password := Some "pass";
     ui_ean := Some "5414XXXXXXXXXXXXX";
     ui_meter_id := Some "1SAG1111111111";
     ui_api_base := Some "https://mijn.fluvius.be";
     ui_granularity := Some "15 minutes";
     ui_time_window_hours := Some 1 |}.

(** [test_world] with another token in the captured request. *)
Definition test_world_with_token (token : string) (status_code : Z) : world :=
  {| browser := fun _ _ =>
       Captured [ {| req_url := "https://mijn.fluvius.be/verbruik/api/meters";
                     req_headers := [("Authorization", token)] |} ];
     now := now (test_world status_code);
     local_utcoffset := local_utcoffset (test_world status_code);
     http_get := http_get (test_world status_code) |}.

(** The coordinator after a run of update cycles, one world per cycle. *)
Fixpoint run_cycles (ws : list world) (self : FluviusCoordinator) : FluviusCoordinator :=
  match ws with
  | [] => self
  | w :: rest => run_cycles rest (res_self (_async_update_data w self))
  end.

(** A token cache that is empty or holds a bearer token. *)
Definition token_is_bearer (self : FluviusCoordinator) : Prop :=
  _bearer_token self = None \/
  exists token, _bearer_token self = Some token /\ prefix "Bearer" token = true.

(* ================================================================== *)
(** ** sensor.py: the entities *)

Definition ascii_upper (c : ascii) : ascii :=
  let n := N_of_ascii c in
  if ((97 <=? n) && (n <=? 122))%N then ascii_of_N (n - 32) else c.

(** [s.capitalize()] on ASCII letters (the sensor kinds are ASCII words). *)
Definition capitalize (s : string) : string :=
  match s with
  | EmptyString => EmptyString
  | String c rest => String (ascii_upper c) (str_lower rest)
  end.

(** The attributes [FluviusBaseEnergySensor.__init__] sets. *)
Record FluviusBaseEnergySensor : Type := {
  sensor_coordinator : FluviusCoordinator;
  kind : string;
  _attr_name : string;
  _attr_unique_id : string;
  _attr_native_value : option float
}.

(** [FluviusBaseEnergySensor.__init__]. *)
Definition FluviusBaseEnergySensor__init__ (coordinator : FluviusCoordinator)
           (name kind : string) : FluviusBaseEnergySensor :=
  {| sensor_coordinator := coordinator;
     kind := kind;
     _attr_name := (name ++ " " ++ capitalize kind)%string;
     _attr_unique_id :=
       ("fluvius_" ++ str_or (meter_id coordinator) "default" ++ "_" ++ kind)%string;
     _attr_native_value := None |}.

(** The entities [async_setup_entry] of sensor.py adds, in order;
    [entry_name] is [entry.data.get("name")]. *)
Definition sensor_async_setup_entry (coordinator : FluviusCoordinator)
           (entry_name : option string) : list FluviusBaseEnergySensor :=
  let name := match entry_name with Some n => n | None => DEFAULT_NAME end in
  [ FluviusBaseEnergySensor__init__ coordinator name "consumption";
    FluviusBaseEnergySensor__init__ coordinator name "injection";
    FluviusBaseEnergySensor__init__ coordinator name "net" ].

(** [n] slashes. *)
Fixpoint slashes (n : nat) : string :=
  match n with
  | O => EmptyString
  | S k => String slash (slashes k)
  end.

(** [d.get(key)] on the data of a config entry. *)
Fixpoint conf_get (d : list (string * conf_value)) (key : string) : option conf_value :=
  match d with
  | [] => None
  | (k, v) :: rest => if String.eqb k key then Some v else conf_get rest key
  end.


(* ================================================================== *)
(** * Properties *)

(** ** Loops and outcomes *)

Lemma for_each_app {E S A} (body : S -> A -> outcome E S) (l1 l2 : list A) (s : S) :
  for_each body (l1 ++ l2) s = (s' <- for_each body l1 s ;; for_each body l2 s').
Proof.
  revert s; induction l1 as [|x l1 IH]; intros s; simpl; [reflexivity|].
  destruct (body s x) as [s'|e]; simpl; [apply IH | reflexivity].
Qed.

Lemma for_each_skip {E S A} (body : S -> A -> outcome E S) (l1 l2 : list A) (x : A) (s : S) :
  (forall acc, body acc x = Return acc) ->
  for_each body (l1 ++ x :: l2) s = for_each body (l1 ++ l2) s.
Proof.
  intros Hx. rewrite !for_each_app.
  destruct (for_each body l1 s) as [s'|e]; simpl; [|reflexivity].
  now rewrite Hx.
Qed.

Lemma for_each_ext_in {E S A} (f g : S -> A -> outcome E S) (l1 l2 : list A) (x y : A) (s : S) :
  (forall acc, f acc x = g acc y) ->
  (forall acc z, f acc z = g acc z) ->
  for_each f (l1 ++ x :: l2) s = for_each g (l1 ++ y :: l2) s.
Proof.
  intros Hxy Hfg.
  assert (Hall : forall l acc, for_each f l acc = for_each g l acc).
  { induction l as [|z l IH]; intros acc; simpl; [reflexivity|].
    rewrite Hfg. destruct (g acc z); simpl; auto. }
  rewrite !for_each_app, Hall.
  destruct (for_each g l1 s) as [s'|e]; simpl; [|reflexivity].
  rewrite Hxy. destruct (g s' y); simpl; auto.
Qed.

Lemma try_except_returns {E A} (body : outcome E A) (a : A) :
  exists r, try_except body (fun _ => Return a) = Return r.
Proof. destruct body as [r|e]; simpl; eauto. Qed.

Lemma truthy_nonempty_list (l : list json) : l <> [] -> truthy (JList l) = true.
Proof. destruct l; [congruence | reflexivity]. Qed.

Lemma py_or_truthy (a b : json) : truthy a = true -> py_or a b = a.
Proof. unfold py_or; now intros ->. Qed.

Lemma app_cons_not_nil {A} (l1 l2 : list A) (x : A) : l1 ++ x :: l2 <> [].
Proof. destruct l1; discriminate. Qed.

(** ** The aggregation layer (sensor.py) *)

Section Sensors.
Context `{PyFloatParser}.

Lemma sum_days_list {S} (body : S -> json -> outcome pyerr S) (days : list json) (init : S) :
  sum_days body (JList days) init = for_each (sum_day body) days init.
Proof. reflexivity. Qed.

Lemma sum_day_without_v {S} (body : S -> json -> outcome pyerr S) (day : json) (acc : S) :
  day_without_v day -> sum_day body acc day = Return acc.
Proof.
  intros (fields & -> & Hv). unfold sum_day, day_readings, dict_get_default.
  now rewrite Hv.
Qed.

Lemma skipped_reading_bodies (reading : json) :
  skipped_reading reading ->
  (forall t, consumption_reading t reading = Return t) /\
  (forall t, injection_reading t reading = Return t) /\
  (forall acc, net_reading acc reading = Return acc).
Proof.
  destruct reading; simpl; auto.
  intros [Hv|Hv]; rewrite Hv; auto.
Qed.

Lemma sum_day_skip_reading {S} (body : S -> json -> outcome pyerr S)
      (f1 f2 : list (string * json)) (rpre rpost : list json) (r : json) (acc : S) :
  (forall a, body a r = Return a) ->
  dict_get f1 "v" = Some (JList (rpre ++ r :: rpost)) ->
  dict_get f2 "v" = Some (JList (rpre ++ rpost)) ->
  sum_day body acc (JDict f1) = sum_day body acc (JDict f2).
Proof.
  intros Hr H1 H2. unfold sum_day, day_readings, dict_get_default.
  rewrite H1, H2. simpl. now apply for_each_skip.
Qed.

Lemma sum_days_skip_day {S} (body : S -> json -> outcome pyerr S)
      (pre post : list json) (day : json) (init : S) :
  day_without_v day ->
  sum_days body (JList (pre ++ day :: post)) init = sum_days body (JList (pre ++ post)) init.
Proof.
  intros Hd. rewrite !sum_days_list. apply for_each_skip.
  intros acc. now apply sum_day_without_v.
Qed.

Lemma sum_days_skip_reading {S} (body : S -> json -> outcome pyerr S)
      (dpre dpost : list json) (f1 f2 : list (string * json))
      (rpre rpost : list json) (r : json) (init : S) :
  (forall a, body a r = Return a) ->
  dict_get f1 "v" = Some (JList (rpre ++ r :: rpost)) ->
  dict_get f2 "v" = Some (JList (rpre ++ rpost)) ->
  sum_days body (JList (dpre ++ JDict f1 :: dpost)) init
  = sum_days body (JList (dpre ++ JDict f2 :: dpost)) init.
Proof.
  intros Hr H1 H2. rewrite !sum_days_list.
  apply for_each_ext_in; [|reflexivity].
  intros acc. now apply sum_day_skip_reading with rpre rpost r.
Qed.

(** On a non-empty list the three properties are the rounded sums. *)
Lemma consumption_on_list (days : list json) :
  days <> [] ->
  FluviusConsumptionSensor_native_value (JList days)
  = try_except (total <- sum_days consumption_reading (JList days) 0%float ;;
                Return (Some (round3 total)))
               (fun _ => Return None).
Proof.
  intros Hne. unfold FluviusConsumptionSensor_native_value.
  now rewrite (py_or_truthy _ _ (truthy_nonempty_list _ Hne)), (truthy_nonempty_list _ Hne).
Qed.

Lemma injection_on_list (days : list json) :
  days <> [] ->
  FluviusInjectionSensor_native_value (JList days)
  = try_except (total <- sum_days injection_reading (JList days) 0%float ;;
                Return (Some (round3 total)))
               (fun _ => Return None).
Proof.
  intros Hne. unfold FluviusInjectionSensor_native_value.
  now rewrite (py_or_truthy _ _ (truthy_nonempty_list _ Hne)), (truthy_nonempty_list _ Hne).
Qed.

Lemma net_on_list (days : list json) :
  days <> [] ->
  FluviusNetSensor_native_value (JList days)
  = try_except (acc <- sum_days net_reading (JList days) (0%float, 0%float) ;;
                Return (Some (round3 (fst acc - snd acc)%float)))
               (fun _ => Return None).
Proof.
  intros Hne. unfold FluviusNetSensor_native_value.
  now rewrite (py_or_truthy _ _ (truthy_nonempty_list _ Hne)), (truthy_nonempty_list _ Hne).
Qed.

(** C4.  With no payload ([coordinator.data] is [None]) or an empty list as
    payload, each of the three [native_value] properties returns [None]; and
    [None] is not a number, so it differs from every total, zero included. *)
Theorem native_value_unset_without_payload :
  (FluviusConsumptionSensor_native_value JNull = Return None /\
   FluviusInjectionSensor_native_value JNull = Return None /\
   FluviusNetSensor_native_value JNull = Return None) /\
  (FluviusConsumptionSensor_native_value (JList []) = Return None /\
   FluviusInjectionSensor_native_value (JList []) = Return None /\
   FluviusNetSensor_native_value (JList []) = Return None) /\
  (forall total : float,
     (Return None : outcome pyerr (option float)) <> Return (Some total)).
Proof.
  repeat split; try reflexivity.
  intros total; discriminate.
Qed.

(** Every falsy payload is treated as no payload. *)
Lemma native_value_unset_on_falsy (data : json) :
  truthy data = false ->
  FluviusConsumptionSensor_native_value data = Return None /\
  FluviusInjectionSensor_native_value data = Return None /\
  FluviusNetSensor_native_value data = Return None.
Proof.
  intros Hf.
  unfold FluviusConsumptionSensor_native_value, FluviusInjectionSensor_native_value,
    FluviusNetSensor_native_value, py_or.
  rewrite Hf. simpl. auto.
Qed.

(** C2.  A reading without a ["dc"] key is counted by the consumption sensor
    (its default code is 1) and by neither the injection sensor nor the net
    sensor (their default code is 0): on the payload
    [[{"v": [{"v": x}]}]] consumption is [round(0.0 + x, 3)], injection is
    [round(0.0, 3)] and net is [round(0.0 - 0.0, 3)]; with [x = 1.5]
    consumption reports 1.5 where net reports 0. *)
Theorem missing_dc_defaults_differ :
  (forall total r val,
     dict_get r "dc" = None -> dict_get r "v" = Some (JFloat val) ->
     consumption_reading total (JDict r) = Return (total + val)%float /\
     injection_reading total (JDict r) = Return total /\
     (forall inj, net_reading (total, inj) (JDict r) = Return (total, inj))) /\
  (forall x,
     let payload := JList [JDict [("v", JList [JDict [("v", JFloat x)]])]] in
     FluviusConsumptionSensor_native_value payload = Return (Some (round3 (0 + x)%float)) /\
     FluviusInjectionSensor_native_value payload = Return (Some (round3 0%float)) /\
     FluviusNetSensor_native_value payload = Return (Some (round3 (0 - 0)%float))) /\
  (exists payload,
     FluviusConsumptionSensor_native_value payload = Return (Some 1.5%float) /\
     FluviusInjectionSensor_native_value payload = Return (Some 0%float) /\
     FluviusNetSensor_native_value payload = Return (Some 0%float)).
Proof.
  split; [|split].
  - intros total r val Hdc Hv.
    unfold consumption_reading, injection_reading, net_reading, dict_get_default.
    rewrite Hv, Hdc. simpl. auto.
  - intros x payload. subst payload. repeat split; reflexivity.
  - exists (JList [JDict [("v", JList [JDict [("v", JFloat 1.5%float)]])]]).
    repeat split; vm_compute; reflexivity.
Qed.

(** C9.  Each sensor's [native_value] is total and never propagates an
    exception: it returns a float or [None] on every payload.  On a non-empty
    payload list a day-bucket without a ["v"] key can be removed without
    changing any of the three values (as long as a bucket remains), and so can
    a reading that is not a dict or whose ["v"] is absent or [None]; and when
    the summation raises, the value is [None]. *)
Theorem native_value_total_and_skipping :
  (forall data, exists c i n,
     FluviusConsumptionSensor_native_value data = Return c /\
     FluviusInjectionSensor_native_value data = Return i /\
     FluviusNetSensor_native_value data = Return n) /\
  (forall pre day post,
     day_without_v day -> pre ++ post <> [] ->
     FluviusConsumptionSensor_native_value (JList (pre ++ day :: post))
     = FluviusConsumptionSensor_native_value (JList (pre ++ post)) /\
     FluviusInjectionSensor_native_value (JList (pre ++ day :: post))
     = FluviusInjectionSensor_native_value (JList (pre ++ post)) /\
     FluviusNetSensor_native_value (JList (pre ++ day :: post))
     = FluviusNetSensor_native_value (JList (pre ++ post))) /\
  (forall dpre f1 f2 dpost rpre r rpost,
     skipped_reading r ->
     dict_get f1 "v" = Some (JList (rpre ++ r :: rpost)) ->
     dict_get f2 "v" = Some (JList (rpre ++ rpost)) ->
     FluviusConsumptionSensor_native_value (JList (dpre ++ JDict f1 :: dpost))
     = FluviusConsumptionSensor_native_value (JList (dpre ++ JDict f2 :: dpost)) /\
     FluviusInjectionSensor_native_value (JList (dpre ++ JDict f1 :: dpost))
     = FluviusInjectionSensor_native_value (JList (dpre ++ JDict f2 :: dpost)) /\
     FluviusNetSensor_native_value (JList (dpre ++ JDict f1 :: dpost))
     = FluviusNetSensor_native_value (JList (dpre ++ JDict f2 :: dpost))) /\
  (forall data err,
     truthy data = true ->
     (sum_days consumption_reading data 0%float = Raise err ->
      FluviusConsumptionSensor_native_value data = Return None) /\
     (sum_days injection_reading data 0%float = Raise err ->
      FluviusInjectionSensor_native_value data = Return None) /\
     (sum_days net_reading data (0%float, 0%float) = Raise err ->
      FluviusNetSensor_native_value data = Return None)).
Proof.
  split; [|split; [|split]].
  - intros data.
    unfold FluviusConsumptionSensor_native_value, FluviusInjectionSensor_native_value,
      FluviusNetSensor_native_value.
    destruct (negb (truthy (py_or data (JList [])))).
    + exists None, None, None; auto.
    + destruct (try_except_returns
                  (total <- sum_days consumption_reading (py_or data (JList [])) 0%float ;;
                   Return (Some (round3 total))) (@None float)) as [c Hc].
      destruct (try_except_returns
                  (total <- sum_days injection_reading (py_or data (JList [])) 0%float ;;
                   Return (Some (round3 total))) (@None float)) as [i Hi].
      destruct (try_except_returns
                  (acc <- sum_days net_reading (py_or data (JList [])) (0%float, 0%float) ;;
                   Return (Some (round3 (fst acc - snd acc)%float))) (@None float)) as [n Hn].
      exists c, i, n. auto.
  - intros pre day post Hday Hne.
    rewrite !consumption_on_list, !injection_on_list, !net_on_list
      by (assumption || apply app_cons_not_nil).
    now rewrite !(sum_days_skip_day _ pre post day) by assumption.
  - intros dpre f1 f2 dpost rpre r rpost Hr H1 H2.
    destruct (skipped_reading_bodies r Hr) as (Hc & Hi & Hn).
    rewrite !consumption_on_list, !injection_on_list, !net_on_list
      by apply app_cons_not_nil.
    rewrite (sum_days_skip_reading consumption_reading dpre dpost f1 f2 rpre rpost r _ Hc H1 H2).
    rewrite (sum_days_skip_reading injection_reading dpre dpost f1 f2 rpre rpost r _ Hi H1 H2).
    rewrite (sum_days_skip_reading net_reading dpre dpost f1 f2 rpre rpost r _ Hn H1 H2).
    auto.
  - intros data err Ht.
    unfold FluviusConsumptionSensor_native_value, FluviusInjectionSensor_native_value,
      FluviusNetSensor_native_value.
    rewrite (py_or_truthy _ _ Ht), Ht. simpl.
    repeat split; intros ->; reflexivity.
Qed.

Lemma SFeqb_1_2_disjoint (x : spec_float) :
  SFeqb x (float_of_int 1) = true -> SFeqb x (float_of_int 2) = false.
Proof.
  change (float_of_int 1) with (S754_finite false 4503599627370496 (-52)).
  change (float_of_int 2) with (S754_finite false 4503599627370496 (-51)).
  unfold SFeqb, SFcompare.
  destruct x as [sg|sg| |sg m e]; try (intros _; destruct sg; reflexivity); [reflexivity|].
  destruct sg; [intros _; reflexivity|].
  destruct (Z.compare_spec e (-52)) as [He|He|He].
  - intros _. subst e. reflexivity.
  - intros Hlt. cbv iota in Hlt. discriminate Hlt.
  - intros Hgt. cbv iota in Hgt. discriminate Hgt.
Qed.

(** The readings a category code selects are disjoint: no value equals both
    the consumption code and the injection code. *)
Lemma py_eq_int_1_2_disjoint (v : json) : py_eq_int v 1 = true -> py_eq_int v 2 = false.
Proof.
  destruct v as [|b|z|f|s|l|d]; simpl; try discriminate.
  - destruct b; [reflexivity | discriminate].
  - intros Hz. apply Z.eqb_eq in Hz. subst z. reflexivity.
  - apply SFeqb_1_2_disjoint.
Qed.

(** On a reading that is passed over or carries a category code, the net
    sensor's pair of accumulators moves exactly as the consumption and the
    injection accumulators do. *)
Lemma net_reading_agrees (reading : json) (c i c' i' : float) :
  reading_has_dc reading ->
  net_reading (c, i) reading = Return (c', i') <->
  consumption_reading c reading = Return c' /\ injection_reading i reading = Return i'.
Proof.
  intros Hdc. destruct reading as [| | | | | |r]; simpl in *;
    try (split; [intros [= -> ->]; auto | intros [[= ->] [= ->]]; reflexivity]).
  destruct Hdc as [Hv|[Hv|Hdc]];
    try (rewrite Hv; split; [intros [= -> ->]; auto | intros [[= ->] [= ->]]; reflexivity]).
  unfold dict_get_default.
  destruct (dict_get r "dc") as [dc|]; [clear Hdc|congruence].
  destruct (dict_get r "v") as [val|];
    [|split; [intros [= -> ->]; auto | intros [[= ->] [= ->]]; reflexivity]].
  assert (Hskip : forall P : Prop,
             (Return (c, i) = Return (c', i') :> outcome pyerr (float * float)) <->
             (Return c = Return c' :> outcome pyerr float) /\
             (Return i = Return i' :> outcome pyerr float)).
  { intros _. split; [intros [= -> ->]; auto | intros [[= ->] [= ->]]; reflexivity]. }
  destruct val; [apply (Hskip True) | ..];
    (cbv beta iota;
     match goal with
     | |- context [py_float ?v] => generalize (py_float v); intros o
     end;
     destruct (py_eq_int dc 1) eqn:H1;
     [ rewrite (py_eq_int_1_2_disjoint dc H1); destruct o as [x|e]; simpl;
       [ split; [intros [= -> ->]; auto | intros [[= ->] [= ->]]; reflexivity]
       | split; [discriminate | intros [? _]; discriminate] ]
     | destruct (py_eq_int dc 2) eqn:H2;
       [ destruct o as [x|e]; simpl;
         [ split; [intros [= -> ->]; auto | intros [[= ->] [= ->]]; reflexivity]
         | split; [discriminate | intros [_ ?]; discriminate] ]
       | apply (Hskip True) ] ]).
Qed.

Lemma net_for_each_agrees (items : list json) :
  Forall reading_has_dc items ->
  forall c i c' i',
    for_each net_reading items (c, i) = Return (c', i') <->
    for_each consumption_reading items c = Return c' /\
    for_each injection_reading items i = Return i'.
Proof.
  induction 1 as [|r items Hr _ IH]; intros c i c' i'; simpl.
  - split; [intros [= -> ->]; auto | intros [[= ->] [= ->]]; reflexivity].
  - destruct (net_reading (c, i) r) as [[c1 i1]|e] eqn:Hn.
    + apply (net_reading_agrees r c i c1 i1 Hr) in Hn. destruct Hn as [-> ->]. simpl.
      apply IH.
    + split; [discriminate|].
      destruct (consumption_reading c r) as [c1|] eqn:Hc; [|intros [? _]; discriminate].
      destruct (injection_reading i r) as [i1|] eqn:Hi; [|intros [_ ?]; discriminate].
      assert (Hr' : net_reading (c, i) r = Return (c1, i1))
        by (apply (net_reading_agrees r c i c1 i1 Hr); auto).
      congruence.
Qed.

Lemma net_sum_day_agrees (day : json) :
  (forall readings items,
      day_readings day = Return readings -> py_iter readings = Return items ->
      Forall reading_has_dc items) ->
  forall c i c' i',
    sum_day net_reading (c, i) day = Return (c', i') <->
    sum_day consumption_reading c day = Return c' /\
    sum_day injection_reading i day = Return i'.
Proof.
  intros Hday c i c' i'. unfold sum_day.
  destruct (day_readings day) as [readings|e]; simpl.
  - destruct (py_iter readings) as [items|e] eqn:Hit; simpl.
    + apply net_for_each_agrees. now apply (Hday readings items).
    + split; [discriminate | intros [? _]; discriminate].
  - split; [discriminate | intros [? _]; discriminate].
Qed.

Lemma net_days_agree (days : list json) :
  Forall (fun day => forall readings items,
              day_readings day = Return readings -> py_iter readings = Return items ->
              Forall reading_has_dc items) days ->
  forall c i c' i',
    for_each (sum_day net_reading) days (c, i) = Return (c', i') <->
    for_each (sum_day consumption_reading) days c = Return c' /\
    for_each (sum_day injection_reading) days i = Return i'.
Proof.
  induction 1 as [|d days Hd _ IH]; intros c i c' i'; simpl.
  - split; [intros [= -> ->]; auto | intros [[= ->] [= ->]]; reflexivity].
  - destruct (sum_day net_reading (c, i) d) as [[c1 i1]|e] eqn:Hn.
    + apply (net_sum_day_agrees d Hd c i c1 i1) in Hn. destruct Hn as [-> ->]. simpl.
      apply IH.
    + split; [discriminate|].
      destruct (sum_day consumption_reading c d) as [c1|] eqn:Hc; [|intros [? _]; discriminate].
      destruct (sum_day injection_reading i d) as [i1|] eqn:Hi; [|intros [_ ?]; discriminate].
      assert (Hr' : sum_day net_reading (c, i) d = Return (c1, i1))
        by (apply (net_sum_day_agrees d Hd c i c1 i1); auto).
      congruence.
Qed.

(** When every reading visited carries a category code, the net sensor sums
    what its two siblings sum: whenever consumption and injection both report
    a number, net reports the rounded difference of their unrounded totals. *)
Lemma net_is_difference_when_dc_present (data : json) (c i : float) :
  all_readings reading_has_dc data ->
  truthy data = true ->
  sum_days consumption_reading data 0%float = Return c ->
  sum_days injection_reading data 0%float = Return i ->
  FluviusConsumptionSensor_native_value data = Return (Some (round3 c)) /\
  FluviusInjectionSensor_native_value data = Return (Some (round3 i)) /\
  FluviusNetSensor_native_value data = Return (Some (round3 (c - i)%float)).
Proof.
  intros Hall Ht Hc Hi.
  assert (Hn : sum_days net_reading data (0%float, 0%float) = Return (c, i)).
  { unfold sum_days in *. destruct (py_iter data) as [days|e] eqn:Hit; [|discriminate].
    simpl in *. apply net_days_agree; auto. }
  unfold FluviusConsumptionSensor_native_value, FluviusInjectionSensor_native_value,
    FluviusNetSensor_native_value.
  rewrite (py_or_truthy _ _ Ht), Ht, Hc, Hi, Hn. simpl. auto.
Qed.

(** C1 (the code departs from it).  On the payload [[{"v": [{"v": 1.5}]}]],
    whose reading has no ["dc"] key, consumption is 1.5, injection is 0 and
    net is 0, so consumption minus injection exceeds net by 1.5. *)
Theorem net_differs_from_difference_without_dc :
  FluviusConsumptionSensor_native_value payload_without_dc = Return (Some 1.5%float) /\
  FluviusInjectionSensor_native_value payload_without_dc = Return (Some 0%float) /\
  FluviusNetSensor_native_value payload_without_dc = Return (Some 0%float) /\
  ((1.5 - 0) - 0)%float = 1.5%float.
Proof. repeat split; vm_compute; reflexivity. Qed.
End Sensors.

(** ** Token acquisition: the scan of the captured requests *)

Lemma prefix_nonempty (p s : string) : str_truthy p = true -> prefix p s = true -> str_truthy s = true.
Proof. destruct p, s; simpl; congruence. Qed.

Lemma scan_requests_cons (request : captured_request) (rest : list captured_request) :
  scan_requests (request :: rest)
  = if qualifies request then headers_get (req_headers request) "Authorization"
    else scan_requests rest.
Proof.
  unfold qualifies. cbn [scan_requests].
  destruct (contains "/api/" (req_url request)); cbn [andb]; [|reflexivity].
  destruct (headers_get (req_headers request) "Authorization") as [h|]; cbn [opt_truthy];
    [|reflexivity].
  destruct (prefix "Bearer" h) eqn:Hp.
  - now rewrite (prefix_nonempty "Bearer" h eq_refl Hp).
  - destruct (str_truthy h); reflexivity.
Qed.

Lemma qualifies_has_header (request : captured_request) :
  qualifies request = true ->
  exists h, headers_get (req_headers request) "Authorization" = Some h /\
            prefix "Bearer" h = true /\ contains "/api/" (req_url request) = true.
Proof.
  unfold qualifies. intros Hq. apply andb_prop in Hq. destruct Hq as [Hc Hh].
  destruct (headers_get (req_headers request) "Authorization") as [h|]; [|discriminate].
  eauto.
Qed.

Lemma scan_requests_some (requests : list captured_request) (token : string) :
  scan_requests requests = Some token <->
  exists pre request post,
    requests = pre ++ request :: post /\
    Forall (fun r => qualifies r = false) pre /\
    qualifies request = true /\
    headers_get (req_headers request) "Authorization" = Some token.
Proof.
  induction requests as [|r rest IH].
  - split; [discriminate|]. intros (pre & q & post & Heq & _). destruct pre; discriminate.
  - rewrite scan_requests_cons. destruct (qualifies r) eqn:Hq.
    + split.
      * intros Hh. exists [], r, rest. auto.
      * intros (pre & q & post & Heq & Hpre & Hqq & Hh).
        destruct pre as [|x pre]; simpl in Heq; injection Heq as -> ->; [assumption|].
        apply Forall_inv in Hpre. congruence.
    + rewrite IH. split.
      * intros (pre & q & post & -> & Hpre & Hqq & Hh).
        exists (r :: pre), q, post. auto.
      * intros (pre & q & post & Heq & Hpre & Hqq & Hh).
        destruct pre as [|x pre]; simpl in Heq; injection Heq as -> ->; [congruence|].
        exists pre, q, post. apply Forall_inv_tail in Hpre. auto.
Qed.

Lemma scan_requests_none (requests : list captured_request) :
  scan_requests requests = None <-> Forall (fun r => qualifies r = false) requests.
Proof.
  induction requests as [|r rest IH].
  - split; auto.
  - rewrite scan_requests_cons. destruct (qualifies r) eqn:Hq.
    + destruct (qualifies_has_header r Hq) as (h & -> & _). split; [discriminate|].
      intros Hall. apply Forall_inv in Hall. congruence.
    + rewrite IH. split.
      * intros Hall. constructor; assumption.
      * intros Hall. now apply Forall_inv_tail in Hall.
Qed.

(** C8.  When the browser session reaches the scan with the captured requests
    [requests], token acquisition returns the [Authorization] header of the
    first request whose URL contains ["/api/"] and whose [Authorization]
    header is present and begins with ["Bearer"]: it returns [token] exactly
    when the list splits into requests that do not qualify, a request that
    qualifies and carries [token], and a rest; it returns [None] exactly when
    no captured request qualifies. *)
Theorem fetch_bearer_token_returns_first_match
        (run : string -> string -> browser_run) (username password : string)
        (requests : list captured_request) :
  run username password = Captured requests ->
  (forall token,
      _fetch_bearer_token_sync run username password = Some token <->
      exists pre request post,
        requests = pre ++ request :: post /\
        Forall (fun r => qualifies r = false) pre /\
        (contains "/api/" (req_url request) = true /\ prefix "Bearer" token = true) /\
        headers_get (req_headers request) "Authorization" = Some token) /\
  (_fetch_bearer_token_sync run username password = None <->
   Forall (fun r => qualifies r = false) requests).
Proof.
  intros Hrun. unfold _fetch_bearer_token_sync. rewrite Hrun. split.
  - intros token. rewrite scan_requests_some. split.
    + intros (pre & q & post & Heq & Hpre & Hq & Hh).
      exists pre, q, post. repeat split; auto.
      * now destruct (qualifies_has_header q Hq) as (h & _ & _ & Hc).
      * destruct (qualifies_has_header q Hq) as (h & Hh' & Hp & _). congruence.
    + intros (pre & q & post & Heq & Hpre & [Hc Hp] & Hh).
      exists pre, q, post. repeat split; auto.
      unfold qualifies. now rewrite Hc, Hh.
  - apply scan_requests_none.
Qed.

(** A session that does not reach the scan yields no token. *)
Lemma fetch_bearer_token_none_without_scan
      (run : string -> string -> browser_run) (username password : string) :
  (run username password = ImportFailed \/
   exists cls msg, run username password = SessionRaised cls msg) ->
  _fetch_bearer_token_sync run username password = None.
Proof.
  unfold _fetch_bearer_token_sync. intros [-> | (cls & msg & ->)]; reflexivity.
Qed.

(** A token the acquisition returns is not empty and begins with ["Bearer"]. *)
Lemma fetch_bearer_token_is_bearer
      (run : string -> string -> browser_run) (username password token : string) :
  _fetch_bearer_token_sync run username password = Some token ->
  prefix "Bearer" token = true /\ str_truthy token = true.
Proof.
  unfold _fetch_bearer_token_sync.
  destruct (run username password) as [|cls msg|requests]; try discriminate.
  intros Hs. apply scan_requests_some in Hs.
  destruct Hs as (pre & q & post & _ & _ & Hq & Hh).
  destruct (qualifies_has_header q Hq) as (h & Hh' & Hp & _).
  assert (h = token) by congruence. subst h.
  split; [assumption|]. now apply (prefix_nonempty "Bearer").
Qed.

Lemma fetch_bearer_token_returns_first_match_witness :
  let requests :=
    [ {| req_url := "https://mijn.fluvius.be/index.html"; req_headers := [] |};
      {| req_url := "https://mijn.fluvius.be/verbruik/api/meters";
         req_headers := [("Authorization", "Bearer faketoken")] |} ] in
  (fun _ _ => Captured requests) "user@example.com" "pass" = Captured requests /\
  _fetch_bearer_token_sync (fun _ _ => Captured requests) "user@example.com" "pass"
  = Some "Bearer faketoken".
Proof.
  split; [reflexivity|].
  apply (proj1 (fetch_bearer_token_returns_first_match
                  (fun _ _ => Captured _) "user@example.com" "pass" _ eq_refl)).
  exists [ {| req_url := "https://mijn.fluvius.be/index.html"; req_headers := [] |} ],
         {| req_url := "https://mijn.fluvius.be/verbruik/api/meters";
            req_headers := [("Authorization", "Bearer faketoken")] |}, [].
  repeat split; try reflexivity.
  constructor; [reflexivity | constructor].
Defined.

(** ** The constructor *)

Lemma rstrip_by_last (strip_it : ascii -> bool) (s : string) (c : ascii) :
  str_last (rstrip_by strip_it s) = Some c -> strip_it c = false.
Proof.
  induction s as [|a s IH]; simpl; [discriminate|].
  destruct (rstrip_by strip_it s) as [|b t] eqn:Hr.
  - destruct (strip_it a) eqn:Ha; simpl; [discriminate|]. intros [= <-]. assumption.
  - intros Hl. apply IH. exact Hl.
Qed.

Lemma rstrip_by_fixed (strip_it : ascii -> bool) (s : string) :
  (forall c, str_last s = Some c -> strip_it c = false) ->
  rstrip_by strip_it s = s.
Proof.
  induction s as [|a s IH]; intros Hl; [reflexivity|].
  cbn [rstrip_by]. destruct s as [|b t].
  - simpl. now rewrite (Hl a eq_refl).
  - rewrite IH by exact Hl. destruct (String b t) eqn:Heq; [discriminate | reflexivity].
Qed.

Lemma rstrip_by_idempotent (strip_it : ascii -> bool) (s : string) :
  rstrip_by strip_it (rstrip_by strip_it s) = rstrip_by strip_it s.
Proof. apply rstrip_by_fixed. intros c. apply rstrip_by_last. Qed.

(** C10.  [__init__] replaces falsy settings by the defaults: a
    [time_window_hours] of [None] or 0 becomes 24 (any other value is kept),
    a [granularity] of [None] or [""] becomes ["1"], and an [api_base] of
    [None] or [""] becomes ["https://mijn.fluvius.be"]; whatever the input, the
    stored base is the chosen base with its trailing ['/'] characters removed,
    so it never ends in ['/']. *)
Theorem init_normalizes_falsy_settings
        (name : string) (username password ean meter_id : option string) (interval : Z) :
  (forall api_base granularity,
      time_window_hours
        (__init__ name username password ean meter_id api_base granularity None interval) = 24 /\
      time_window_hours
        (__init__ name username password ean meter_id api_base granularity (Some 0) interval) = 24 /\
      forall z,
        time_window_hours
          (__init__ name username password ean meter_id api_base granularity (Some z) interval)
        = if z =? 0 then 24 else z) /\
  (forall api_base twh,
      granularity (__init__ name username password ean meter_id api_base None twh interval) = "1" /\
      granularity (__init__ name username password ean meter_id api_base (Some "") twh interval) = "1") /\
  (forall granularity twh,
      api_base (__init__ name username password ean meter_id None granularity twh interval)
      = "https://mijn.fluvius.be" /\
      api_base (__init__ name username password ean meter_id (Some "") granularity twh interval)
      = "https://mijn.fluvius.be") /\
  (forall base granularity twh,
      let stored :=
        api_base (__init__ name username password ean meter_id base granularity twh interval) in
      stored = rstrip_slash (str_or base "https://mijn.fluvius.be") /\
      str_last stored <> Some slash).
Proof.
  split; [|split; [|split]]; intros; repeat split; try reflexivity.
  cbn [api_base __init__]. unfold rstrip_slash. intros Hl.
  apply rstrip_by_last in Hl. now rewrite Ascii.eqb_refl in Hl.
Qed.

(** The constructor starts with an empty token cache and no payload. *)
Lemma init_has_no_token name username password ean meter_id api_base granularity twh interval :
  _bearer_token
    (__init__ name username password ean meter_id api_base granularity twh interval) = None /\
  _last_data
    (__init__ name username password ean meter_id api_base granularity twh interval) = None.
Proof. split; reflexivity. Qed.

(** ** The config flow *)

Lemma async_step_user_entry (w : world) (input : option user_input)
      (title : string) (data : list (string * conf_value)) :
  async_step_user w input = Return (CreateEntry title data) ->
  exists ui,
    input = Some ui /\
    title = match ui_name ui with Some n => n | None => "Fluvius Electricity" end /\
    data = entry_data title
             (strip (str_or (ui_username ui) ""))
             (strip (str_or (ui_password ui) ""))
             (strip (str_or (ui_ean ui) ""))
             (strip (str_or (ui_meter_id ui) ""))
             (strip (str_or (ui_api_base ui) "https://mijn.fluvius.be"))
             match ui_granularity ui with
             | Some label =>
                 match str_dict_get _LABEL_TO_KEY label with
                 | Some key => key
                 | None => DEFAULT_GRANULARITY
                 end
             | None => DEFAULT_GRANULARITY
             end
             match ui_time_window_hours ui with
             | Some z => z
             | None => DEFAULT_TIME_WINDOW_HOURS
             end.
Proof.
  unfold async_step_user. destruct input as [ui|]; [|discriminate].
  destruct (negb (str_truthy (strip (str_or (ui_ean ui) "")))); [discriminate|].
  destruct (negb (opt_truthy (_fetch_bearer_token_sync _ _ _))); [discriminate|].
  destruct (_validate_token _ _ _ _) as [ok|err]; [|discriminate].
  cbn [bind]. destruct (negb ok); [discriminate|].
  intros [= <- <-]. exists ui. auto.
Qed.

(** C7.  The entry the config flow creates holds exactly the fields [name],
    [username], [password], [ean], [meter_id], [api_base], [granularity] and
    [time_window_hours], none of them the token's key, and it is a function
    of the form's input alone: two runs on the same input, in worlds that
    hand out whatever tokens, create the same entry. *)
Theorem persisted_entry_independent_of_token
        (w1 w2 : world) (input : option user_input)
        (title1 title2 : string) (data1 data2 : list (string * conf_value)) :
  async_step_user w1 input = Return (CreateEntry title1 data1) ->
  async_step_user w2 input = Return (CreateEntry title2 data2) ->
  title1 = title2 /\
  data1 = data2 /\
  map fst data1 = ["name"; "username"; "password"; "ean"; "meter_id"; "api_base";
                   "granularity"; "time_window_hours"] /\
  ~ In CONF_BEARER_TOKEN (map fst data1).
Proof.
  intros H1 H2.
  apply async_step_user_entry in H1. destruct H1 as (ui1 & Hi1 & Ht1 & Hd1).
  apply async_step_user_entry in H2. destruct H2 as (ui2 & Hi2 & Ht2 & Hd2).
  assert (ui1 = ui2) by congruence. subst ui2.
  assert (Ht : title1 = title2) by congruence.
  split; [exact Ht|]. split; [congruence|].
  rewrite Hd1. split; [reflexivity|].
  cbn. unfold CONF_BEARER_TOKEN. intros Hin.
  repeat (destruct Hin as [Hin|Hin]; [discriminate Hin|]). exact Hin.
Qed.

Lemma persisted_entry_independent_of_token_witness :
  exists title data,
    async_step_user (test_world_with_token "Bearer one" 200) (Some test_user_input)
    = Return (CreateEntry title data) /\
    async_step_user (test_world_with_token "Bearer two" 200) (Some test_user_input)
    = Return (CreateEntry title data) /\
    map fst data = ["name"; "username"; "password"; "ean"; "meter_id"; "api_base";
                    "granularity"; "time_window_hours"].
Proof.
  eexists. eexists.
  split; [vm_compute; reflexivity|].
  split; [vm_compute; reflexivity|].
  exact (proj1 (proj2 (proj2 (persisted_entry_independent_of_token
                  (test_world_with_token "Bearer one" 200)
                  (test_world_with_token "Bearer two" 200)
                  (Some test_user_input) _ _ _ _ eq_refl eq_refl)))).
Defined.

(** ** The update cycle *)

Lemma opt_truthy_some (v : option string) :
  opt_truthy v = true -> v = Some (the_str v) /\ str_truthy (the_str v) = true.
Proof. destruct v as [s|]; simpl; [auto | discriminate]. Qed.

(** The token step with a cached token: the token is returned, nothing else
    happens. *)
Lemma token_step_cached (w : world) (self : FluviusCoordinator) :
  opt_truthy (_bearer_token self) = true ->
  _async_get_bearer_token_if_needed w self
  = {| res_outcome := Return (the_str (_bearer_token self));
       res_self := self;
       res_trace := [] |}.
Proof.
  intros Ht. unfold _async_get_bearer_token_if_needed, and_then, get_self.
  cbn [res_outcome res_self res_trace]. rewrite Ht. reflexivity.
Qed.

(** The token step with an empty cache and no credentials. *)
Lemma token_step_no_credentials (w : world) (self : FluviusCoordinator) :
  opt_truthy (_bearer_token self) = false ->
  opt_truthy (_username self) && opt_truthy (_password self) = false ->
  _async_get_bearer_token_if_needed w self
  = {| res_outcome := Raise (UpdateFailed "No username/password configured to acquire token");
       res_self := self;
       res_trace := [] |}.
Proof.
  intros Ht Hc. unfold _async_get_bearer_token_if_needed, and_then, get_self.
  cbn [res_outcome res_self res_trace]. rewrite Ht.
  destruct (opt_truthy (_username self)), (opt_truthy (_password self));
    try discriminate; reflexivity.
Qed.

(** The token step with an empty cache and credentials: the browser session
    is run; its token, if any, is cached and returned. *)
Lemma token_step_acquire (w : world) (self : FluviusCoordinator) :
  opt_truthy (_bearer_token self) = false ->
  opt_truthy (_username self) = true ->
  opt_truthy (_password self) = true ->
  let username := the_str (_username self) in
  let password := the_str (_password self) in
  let token := _fetch_bearer_token_sync (browser w) username password in
  _async_get_bearer_token_if_needed w self
  = if opt_truthy token
    then {| res_outcome := Return (the_str token);
            res_self := res_self (_set_bearer_token token self);
            res_trace := [EvAcquire username password] |}
    else {| res_outcome :=
              Raise (UpdateFailed "Failed to retrieve bearer token using provided credentials");
            res_self := self;
            res_trace := [EvAcquire username password] |}.
Proof.
  intros Ht Hu Hp username password token.
  unfold _async_get_bearer_token_if_needed, and_then, get_self.
  cbn [res_outcome res_self res_trace]. rewrite Ht, Hu, Hp. cbn [negb orb].
  fold username password token.
  destruct (opt_truthy token); reflexivity.
Qed.

(** The fetch, case by case. *)
Lemma fetch_with_token_unfold (w : world) (token : string) (self : FluviusCoordinator) :
  fetch_with_token w token self
  = match polling_window self w with
    | Raise err => {| res_outcome := Raise err; res_self := self; res_trace := [] |}
    | Return window =>
        match build_params self w (fst window) (snd window) with
        | Raise err => {| res_outcome := Raise err; res_self := self; res_trace := [] |}
        | Return p =>
            let request := build_request self token p in
            match http_get w request with
            | Raise err =>
                {| res_outcome := Raise err; res_self := self; res_trace := [EvGet request] |}
            | Return resp =>
                match text resp with
                | Raise err =>
                    {| res_outcome := Raise err; res_self := self; res_trace := [EvGet request] |}
                | Return body =>
                    if status resp =? 200 then
                      match resp_json resp with
                      | Raise err =>
                          {| res_outcome := Raise (as_invalid_json err);
                             res_self := self;
                             res_trace := [EvGet request] |}
                      | Return data =>
                          {| res_outcome := Return data;
                             res_self := res_self (set_last_data data self);
                             res_trace := [EvGet request] |}
                      end
                    else
                      {| res_outcome := Raise (http_failure (status resp) body);
                         res_self := if status resp =? 401
                                     then res_self (_set_bearer_token None self)
                                     else self;
                         res_trace := [EvGet request] |}
                end
            end
        end
    end.
Proof.
  unfold fetch_with_token, and_then, catch, get_self, lift, emit, raise, ret.
  cbn [res_outcome res_self res_trace].
  destruct (polling_window self w) as [window|e]; cbn [res_outcome res_self res_trace app];
    [|reflexivity].
  destruct (build_params self w (fst window) (snd window)) as [p|e];
    cbn [res_outcome res_self res_trace app]; [|reflexivity].
  destruct (http_get w (build_request self token p)) as [resp|e];
    cbn [res_outcome res_self res_trace app]; [|reflexivity].
  destruct (text resp) as [body|e]; cbn [res_outcome res_self res_trace app]; [|reflexivity].
  destruct (status resp =? 200); cbn [negb res_outcome res_self res_trace app].
  - destruct (resp_json resp) as [data|e]; cbn [res_outcome res_self res_trace app];
      [reflexivity|].
    unfold as_invalid_json. destruct (is_exception e); reflexivity.
  - destruct (status resp =? 401); cbn [res_outcome res_self res_trace app]; reflexivity.
Qed.

(** The cycle is the token step followed, when it returns, by the fetch;
    every exception leaves the cycle as an [UpdateFailed]. *)
Lemma update_data_unfold (w : world) (self : FluviusCoordinator) :
  _async_update_data w self
  = let t := _async_get_bearer_token_if_needed w self in
    match res_outcome t with
    | Raise err =>
        {| res_outcome := Raise (as_update_failed err);
           res_self := res_self t;
           res_trace := res_trace t |}
    | Return token =>
        let f := fetch_with_token w token (res_self t) in
        {| res_outcome := match res_outcome f with
                          | Return data => Return data
                          | Raise err => Raise (as_update_failed err)
                          end;
           res_self := res_self f;
           res_trace := res_trace t ++ res_trace f |}
    end.
Proof.
  unfold _async_update_data, catch, and_then, raise.
  cbn [res_outcome res_self res_trace].
  destruct (res_outcome (_async_get_bearer_token_if_needed w self)) as [token|e] eqn:Ho;
    cbn [res_outcome res_self res_trace].
  - destruct (res_outcome (fetch_with_token w token _)) as [data|e] eqn:Hf;
      cbn [res_outcome res_self res_trace]; [reflexivity|].
    destruct e; cbn [is_exception as_update_failed res_outcome res_self res_trace];
      rewrite ?app_nil_r; reflexivity.
  - destruct e; cbn [is_exception as_update_failed res_outcome res_self res_trace];
      rewrite ?app_nil_r; reflexivity.
Qed.

Lemma same_settings_refl (a : FluviusCoordinator) : same_settings a a.
Proof. unfold same_settings. repeat split. Qed.

Lemma same_settings_trans (a b c : FluviusCoordinator) :
  same_settings a b -> same_settings b c -> same_settings a c.
Proof.
  unfold same_settings.
  intros (?&?&?&?&?&?&?&?) (?&?&?&?&?&?&?&?). repeat split; congruence.
Qed.

Lemma set_bearer_token_settings (token : option string) (self : FluviusCoordinator) :
  same_settings self (res_self (_set_bearer_token token self)) /\
  _bearer_token (res_self (_set_bearer_token token self)) = token /\
  _last_data (res_self (_set_bearer_token token self)) = _last_data self.
Proof. unfold same_settings. repeat split. Qed.

Lemma set_last_data_settings (data : json) (self : FluviusCoordinator) :
  same_settings self (res_self (set_last_data data self)) /\
  _bearer_token (res_self (set_last_data data self)) = _bearer_token self /\
  _last_data (res_self (set_last_data data self)) = Some data.
Proof. unfold same_settings. repeat split. Qed.

(** What the token step comes to. *)
Lemma token_step_summary (w : world) (self : FluviusCoordinator) :
  let t := _async_get_bearer_token_if_needed w self in
  same_settings self (res_self t) /\
  _last_data (res_self t) = _last_data self /\
  match res_outcome t with
  | Return token =>
      _bearer_token (res_self t) = Some token /\ str_truthy token = true /\
      ((opt_truthy (_bearer_token self) = true /\ res_self t = self /\ res_trace t = []) \/
       (opt_truthy (_bearer_token self) = false /\
        opt_truthy (_username self) = true /\ opt_truthy (_password self) = true /\
        res_trace t = [EvAcquire (the_str (_username self)) (the_str (_password self))] /\
        _fetch_bearer_token_sync (browser w) (the_str (_username self)) (the_str (_password self))
        = Some token))
  | Raise err =>
      res_self t = self /\ opt_truthy (_bearer_token self) = false /\
      (exists msg, err = UpdateFailed msg) /\
      (res_trace t = [] \/
       res_trace t = [EvAcquire (the_str (_username self)) (the_str (_password self))])
  end.
Proof.
  intros t. subst t.
  destruct (opt_truthy (_bearer_token self)) eqn:Ht.
  - rewrite (token_step_cached w self Ht). cbn [res_outcome res_self res_trace].
    destruct (opt_truthy_some _ Ht) as [Hs Hn].
    split; [apply same_settings_refl|]. split; [reflexivity|].
    split; [exact Hs|]. split; [exact Hn|]. left. auto.
  - destruct (opt_truthy (_username self) && opt_truthy (_password self)) eqn:Hc.
    + apply andb_prop in Hc. destruct Hc as [Hu Hp].
      rewrite (token_step_acquire w self Ht Hu Hp).
      destruct (opt_truthy (_fetch_bearer_token_sync _ _ _)) eqn:Hf;
        cbn [res_outcome res_self res_trace].
      * destruct (opt_truthy_some _ Hf) as [Hs Hn].
        destruct (set_bearer_token_settings
                    (_fetch_bearer_token_sync (browser w) (the_str (_username self))
                                              (the_str (_password self))) self)
          as (Hsame & Htok & Hlast).
        split; [exact Hsame|]. split; [exact Hlast|].
        split; [congruence|]. split; [exact Hn|]. right. repeat split; auto.
      * split; [apply same_settings_refl|]. split; [reflexivity|].
        repeat split; eauto.
    + rewrite (token_step_no_credentials w self Ht Hc). cbn [res_outcome res_self res_trace].
      split; [apply same_settings_refl|]. split; [reflexivity|].
      repeat split; eauto.
Qed.

Lemma token_step_no_get (w : world) (self : FluviusCoordinator) (request : http_request) :
  ~ In (EvGet request) (res_trace (_async_get_bearer_token_if_needed w self)).
Proof.
  pose proof (token_step_summary w self) as H. cbv zeta in H.
  destruct H as (_ & _ & H).
  destruct (res_outcome (_async_get_bearer_token_if_needed w self)).
  - destruct H as (_ & _ & [(_ & _ & ->) | (_ & _ & _ & -> & _)]); simpl; intuition discriminate.
  - destruct H as (_ & _ & _ & [-> | ->]); simpl; intuition discriminate.
Qed.

(** The fetch issues its request exactly when the window and the parameters
    could be computed. *)
Lemma fetch_with_token_trace (w : world) (token : string) (self : FluviusCoordinator) :
  res_trace (fetch_with_token w token self)
  = match polling_window self w with
    | Raise _ => []
    | Return window =>
        match build_params self w (fst window) (snd window) with
        | Raise _ => []
        | Return p => [EvGet (build_request self token p)]
        end
    end.
Proof.
  rewrite fetch_with_token_unfold.
  destruct (polling_window self w) as [window|e]; [|reflexivity].
  destruct (build_params self w (fst window) (snd window)) as [p|e]; [|reflexivity].
  cbv zeta.
  destruct (http_get w (build_request self token p)) as [r|e]; [|reflexivity].
  destruct (text r); [|reflexivity].
  destruct (status r =? 200); [|reflexivity].
  destruct (resp_json r); reflexivity.
Qed.

Lemma update_data_trace (w : world) (self : FluviusCoordinator) :
  res_trace (_async_update_data w self)
  = let t := _async_get_bearer_token_if_needed w self in
    match res_outcome t with
    | Raise _ => res_trace t
    | Return token => res_trace t ++ res_trace (fetch_with_token w token (res_self t))
    end.
Proof.
  rewrite update_data_unfold. cbv zeta.
  destruct (res_outcome (_async_get_bearer_token_if_needed w self)); reflexivity.
Qed.

(** What a cycle that received a response went through. *)
Lemma cycle_response_inv (w : world) (self : FluviusCoordinator) (resp : http_response) :
  cycle_response w self resp ->
  exists token window p,
    let t := _async_get_bearer_token_if_needed w self in
    let request := build_request (res_self t) token p in
    res_outcome t = Return token /\
    polling_window (res_self t) w = Return window /\
    build_params (res_self t) w (fst window) (snd window) = Return p /\
    http_get w request = Return resp /\
    res_trace (_async_update_data w self) = res_trace t ++ [EvGet request].
Proof.
  intros (request & Hin & Hget).
  rewrite update_data_trace in Hin |- *. cbv zeta in Hin |- *.
  destruct (res_outcome (_async_get_bearer_token_if_needed w self)) as [token|e] eqn:Ho.
  - apply in_app_or in Hin. destruct Hin as [Hin|Hin];
      [exfalso; exact (token_step_no_get w self request Hin)|].
    rewrite fetch_with_token_trace in Hin |- *.
    destruct (polling_window _ w) as [window|e] eqn:Hw; [|destruct Hin].
    destruct (build_params _ w (fst window) (snd window)) as [p|e] eqn:Hp; [|destruct Hin].
    destruct Hin as [[= <-]|[]].
    exists token, window, p. cbv zeta. repeat split; auto.
  - exfalso. exact (token_step_no_get w self request Hin).
Qed.

(** The coordinator the fetch leaves behind. *)
Lemma fetch_with_token_self (w : world) (token : string) (self : FluviusCoordinator) :
  let s' := res_self (fetch_with_token w token self) in
  same_settings self s' /\
  (_bearer_token s' = _bearer_token self \/ _bearer_token s' = None).
Proof.
  cbv zeta. rewrite fetch_with_token_unfold.
  destruct (polling_window self w) as [window|e];
    [|split; [apply same_settings_refl | left; reflexivity]].
  destruct (build_params self w (fst window) (snd window)) as [p|e];
    [|split; [apply same_settings_refl | left; reflexivity]].
  cbv zeta.
  destruct (http_get w (build_request self token p)) as [r|e];
    [|split; [apply same_settings_refl | left; reflexivity]].
  destruct (text r); [|split; [apply same_settings_refl | left; reflexivity]].
  destruct (status r =? 200).
  - destruct (resp_json r); cbn [res_self];
      [|split; [apply same_settings_refl | left; reflexivity]].
    destruct (set_last_data_settings a0 self) as (Hs & Ht & _). auto.
  - cbn [res_self]. destruct (status r =? 401).
    + destruct (set_bearer_token_settings None self) as (Hs & Ht & _). auto.
    + split; [apply same_settings_refl | left; reflexivity].
Qed.

(** A cycle never changes the settings. *)
Lemma update_data_settings (w : world) (self : FluviusCoordinator) :
  same_settings self (res_self (_async_update_data w self)).
Proof.
  rewrite update_data_unfold. cbv zeta.
  destruct (token_step_summary w self) as (Hs & _ & _).
  destruct (res_outcome (_async_get_bearer_token_if_needed w self)) as [token|e];
    cbn [res_self]; [|exact Hs].
  eapply same_settings_trans; [exact Hs|].
  apply (fetch_with_token_self w token).
Qed.







Lemma reachable_test_coordinator : reachable test_coordinator.
Proof. apply reach_init. Qed.

Lemma cycle_response_test_world (status_code : Z) :
  cycle_response (test_world status_code) test_coordinator
                 {| status := status_code;
                    text := Return "response body";
                    resp_json := Return sample_api_response |}.
Proof.
  eexists. split; [|reflexivity].
  rewrite update_data_trace. cbv zeta.
  assert (Ht : _async_get_bearer_token_if_needed (test_world status_code) test_coordinator
               = {| res_outcome := Return "Bearer faketoken";
                    res_self := res_self (_set_bearer_token (Some "Bearer faketoken")
                                                            test_coordinator);
                    res_trace := [EvAcquire "user@example.com" "pass"] |})
    by reflexivity.
  rewrite Ht. cbn [res_outcome res_self res_trace].
  rewrite fetch_with_token_trace.
  vm_compute. right. left. reflexivity.
Qed.





Lemma headers_get_authorization (token : string) :
  headers_get (build_headers token) "Authorization" = Some token.
Proof. reflexivity. Qed.



(** ** The polling window *)

Lemma polling_window_inv (self : FluviusCoordinator) (w : world) (since until : Z) :
  polling_window self w = Return (since, until) ->
  until = now w /\ since = until - time_window_hours self * microseconds_per_hour.
Proof.
  unfold polling_window, timedelta_hours, datetime_sub.
  destruct (_ && _); [|discriminate]. cbn [bind].
  destruct (_ && _); [|discriminate]. cbn [bind].
  intros [= <- <-]. auto.
Qed.

(** The text [fmt] prints names the instant it was given, to the second. *)
Lemma fmt_instant (w : world) (dt : Z) (s : stamp) :
  fmt w dt = Return s -> stamp_instant s = dt / 1000000.
Proof.
  unfold fmt. destruct (_ && _); [|discriminate].
  destruct (_ && _); [|discriminate].
  intros [= <-]. unfold stamp_instant. cbn [wall_second utc_offset]. lia.
Qed.

(** The text [fmt] prints carries an offset strictly within a day of UTC. *)
Lemma fmt_offset (w : world) (dt : Z) (s : stamp) :
  fmt w dt = Return s -> -86400 < utc_offset s < 86400.
Proof.
  unfold fmt. cbv zeta.
  destruct ((-86400 <? local_utcoffset w (dt / 1000000))
            && (local_utcoffset w (dt / 1000000) <? 86400)) eqn:Hoff; [|discriminate].
  destruct ((datetime_min <=? _) && _); [|discriminate].
  intros [= <-]. cbn [utc_offset].
  apply andb_prop in Hoff. destruct Hoff as [Hlo Hhi].
  apply Z.ltb_lt in Hlo. apply Z.ltb_lt in Hhi. lia.
Qed.

Lemma build_params_inv (self : FluviusCoordinator) (w : world) (since until : Z)
      (p : query_params) :
  build_params self w since until = Return p ->
  fmt w since = Return (historyFrom p) /\ fmt w until = Return (historyUntil p) /\
  param_granularity p = granularity self /\
  asServiceProvider p = "false" /\
  meterSerialNumber p = the_str (meter_id self).
Proof.
  unfold build_params.
  destruct (fmt w since) as [from|e]; [|discriminate]. cbn [bind].
  destruct (fmt w until) as [to|e]; [|discriminate]. cbn [bind].
  intros [= <-]. cbn. auto.
Qed.

(** Every request a cycle issues is the one [build_request] makes from the
    settings, the token the token step returned and the window. *)
Lemma update_data_request (w : world) (self : FluviusCoordinator) (request : http_request) :
  In (EvGet request) (res_trace (_async_update_data w self)) ->
  exists token since until p,
    res_outcome (_async_get_bearer_token_if_needed w self) = Return token /\
    polling_window self w = Return (since, until) /\
    build_params self w since until = Return p /\
    url request = build_url self /\
    params request = p /\
    headers request = build_headers token /\
    timeout request = 60.
Proof.
  intros Hin. rewrite update_data_trace in Hin. cbv zeta in Hin.
  pose proof (token_step_summary w self) as Hsum. cbv zeta in Hsum.
  destruct Hsum as (Hsame & _ & _).
  destruct (res_outcome (_async_get_bearer_token_if_needed w self)) as [token|e] eqn:Ho;
    [|exfalso; exact (token_step_no_get w self request Hin)].
  apply in_app_or in Hin. destruct Hin as [Hin|Hin];
    [exfalso; exact (token_step_no_get w self request Hin)|].
  rewrite fetch_with_token_trace in Hin.
  set (s1 := res_self (_async_get_bearer_token_if_needed w self)) in *.
  assert (Hpw : polling_window s1 w = polling_window self w).
  { unfold polling_window. destruct Hsame as (_&_&_&_&_&_&_&Htw). now rewrite Htw. }
  assert (Hbp : forall a b, build_params s1 w a b = build_params self w a b).
  { intros a b. unfold build_params. destruct Hsame as (_&_&_&_&Hm&_&Hg&_).
    now rewrite Hm, Hg. }
  assert (Hbu : build_url s1 = build_url self).
  { unfold build_url. destruct Hsame as (_&_&_&He&_&Ha&_). now rewrite He, Ha. }
  rewrite Hpw in Hin.
  destruct (polling_window self w) as [[since until]|e]; [|destruct Hin].
  rewrite Hbp in Hin. cbn [fst snd] in Hin.
  destruct (build_params self w since until) as [p|e] eqn:Hp; [|destruct Hin].
  destruct Hin as [[= <-]|[]].
  exists token, since, until, p. cbn. repeat split; auto.
Qed.

(** C6.  For every request a cycle issues, the window it was built from has
    [until] equal to the clock's reading and [since] equal to [until] minus
    [time_window_hours] hours, to the microsecond; [historyFrom] and
    [historyUntil] are the texts of [since] and [until]; and when
    [time_window_hours] is at least 1, [since] is before [until] and the
    instant [historyFrom] names is before the one [historyUntil] names. *)
Theorem polling_window_exact
        (w : world) (self : FluviusCoordinator) (request : http_request) :
  In (EvGet request) (res_trace (_async_update_data w self)) ->
  exists since until,
    polling_window self w = Return (since, until) /\
    until = now w /\
    since = until - time_window_hours self * 3600000000 /\
    fmt w since = Return (historyFrom (params request)) /\
    fmt w until = Return (historyUntil (params request)) /\
    (1 <= time_window_hours self ->
     since < until /\
     stamp_instant (historyFrom (params request))
     < stamp_instant (historyUntil (params request))).
Proof.
  intros Hin.
  destruct (update_data_request w self request Hin)
    as (token & since & until & p & _ & Hw & Hp & _ & Hparams & _).
  exists since, until.
  destruct (polling_window_inv self w since until Hw) as [Hu Hs].
  destruct (build_params_inv self w since until p Hp) as (Hfrom & Hto & _).
  rewrite Hparams.
  unfold microseconds_per_hour in Hs.
  repeat split; auto.
  - lia.
  - rewrite (fmt_instant w since _ Hfrom), (fmt_instant w until _ Hto).
    replace since with (until + (- (time_window_hours self * 3600)) * 1000000) by lia.
    rewrite Z.div_add by discriminate. lia.
Qed.

Lemma polling_window_exact_witness :
  1 <= time_window_hours test_coordinator /\
  polling_window test_coordinator (test_world 200)
  = Return (1700000000000000 - 1 * 3600000000, 1700000000000000).
Proof.
  split; [vm_compute; discriminate|].
  assert (Hin : In (EvGet (build_request
                             (res_self (_set_bearer_token (Some "Bearer faketoken")
                                                          test_coordinator))
                             "Bearer faketoken"
                             {| historyFrom := {| wall_second := 1700000000; utc_offset := 3600 |};
                                historyUntil := {| wall_second := 1700003600; utc_offset := 3600 |};
                                param_granularity := "1";
                                asServiceProvider := "false";
                                meterSerialNumber := "1SAG1111111111" |}))
                   (res_trace (_async_update_data (test_world 200) test_coordinator)))
    by (vm_compute; right; left; reflexivity).
  destruct (polling_window_exact (test_world 200) test_coordinator _ Hin)
    as (since & until & Hw & Hu & Hs & _).
  rewrite Hw, Hs, Hu. reflexivity.
Defined.

(** ** The sensors on the payload of the tests *)

Lemma missing_dc_defaults_differ_witness :
  dict_get [("v", JFloat 1.5%float)] "dc" = None /\
  dict_get [("v", JFloat 1.5%float)] "v" = Some (JFloat 1.5%float) /\
  @consumption_reading no_numeric_text 0%float (JDict [("v", JFloat 1.5%float)])
  = Return (0 + 1.5)%float /\
  @injection_reading no_numeric_text 0%float (JDict [("v", JFloat 1.5%float)])
  = Return 0%float.
Proof.
  split; [reflexivity|]. split; [reflexivity|].
  destruct (proj1 (@missing_dc_defaults_differ no_numeric_text)
                  0%float [("v", JFloat 1.5%float)] 1.5%float eq_refl eq_refl)
    as (Hc & Hi & _).
  split; [exact Hc | exact Hi].
Defined.

Lemma native_value_total_and_skipping_witness :
  day_without_v (JDict [("d", JStr "2024-01-01")]) /\
  @FluviusNetSensor_native_value no_numeric_text
     (JList ([] ++ JDict [("d", JStr "2024-01-01")]
                :: [JDict [("v", JList [JDict [("dc", JInt 1); ("v", JFloat 1.5%float)]])]]))
  = @FluviusNetSensor_native_value no_numeric_text
      (JList ([] ++ [JDict [("v", JList [JDict [("dc", JInt 1); ("v", JFloat 1.5%float)]])]])).
Proof.
  assert (Hday : day_without_v (JDict [("d", JStr "2024-01-01")]))
    by (eexists; split; reflexivity).
  split; [exact Hday|].
  refine (proj2 (proj2 (proj1 (proj2 (@native_value_total_and_skipping no_numeric_text))
                              [] (JDict [("d", JStr "2024-01-01")])
                              [JDict [("v", JList [JDict [("dc", JInt 1);
                                                          ("v", JFloat 1.5%float)]])]]
                              Hday _))).
  discriminate.
Defined.

(* ================================================================== *)
(** * Further properties of the code *)

(** ** sensor.py: what the three sums count and when they give up *)

Section SensorEdges.
Context `{PyFloatParser}.

Lemma for_each_raises_at {E S A} (body : S -> A -> outcome E S) (pre post : list A) (x : A) :
  (forall s, exists e, body s x = Raise e) ->
  forall s, exists e, for_each body (pre ++ x :: post) s = Raise e.
Proof.
  intros Hx s. rewrite for_each_app.
  destruct (for_each body pre s) as [s'|e]; simpl; [|eauto].
  destruct (Hx s') as [e ->]. simpl. eauto.
Qed.

Lemma sum_day_raises_at {S} (body : S -> json -> outcome pyerr S)
      (f : list (string * json)) (rpre rpost : list json) (r : json) :
  dict_get f "v" = Some (JList (rpre ++ r :: rpost)) ->
  (forall s, exists e, body s r = Raise e) ->
  forall acc, exists e, sum_day body acc (JDict f) = Raise e.
Proof.
  intros Hv Hr acc. unfold sum_day, day_readings, dict_get_default. rewrite Hv. simpl.
  now apply for_each_raises_at.
Qed.

Lemma raising_sum_is_none (days : list json) :
  days <> [] ->
  ((exists e, sum_days consumption_reading (JList days) 0%float = Raise e) ->
   FluviusConsumptionSensor_native_value (JList days) = Return None) /\
  ((exists e, sum_days injection_reading (JList days) 0%float = Raise e) ->
   FluviusInjectionSensor_native_value (JList days) = Return None) /\
  ((exists e, sum_days net_reading (JList days) (0%float, 0%float) = Raise e) ->
   FluviusNetSensor_native_value (JList days) = Return None).
Proof.
  intros Hne.
  rewrite (consumption_on_list days Hne), (injection_on_list days Hne), (net_on_list days Hne).
  repeat split; intros [e ->]; reflexivity.
Qed.

(** X1.  When every reading the loops visit is passed over or carries a
    ["dc"] key, and the consumption and injection sums both succeed, the net
    sensor reports the rounded difference of the two unrounded sums, and its
    siblings report those sums rounded. *)
Theorem net_matches_siblings_when_dc_present (data : json) (c i : float) :
  all_readings reading_has_dc data ->
  truthy data = true ->
  sum_days consumption_reading data 0%float = Return c ->
  sum_days injection_reading data 0%float = Return i ->
  FluviusConsumptionSensor_native_value data = Return (Some (round3 c)) /\
  FluviusInjectionSensor_native_value data = Return (Some (round3 i)) /\
  FluviusNetSensor_native_value data = Return (Some (round3 (c - i)%float)).
Proof. apply net_is_difference_when_dc_present. Qed.

(** X2.  No reading is counted twice: whatever the reading and the running
    totals, the consumption loop or the injection loop passes over it. *)
Theorem reading_never_counted_twice (reading : json) (c i : float) :
  consumption_reading c reading = Return c \/ injection_reading i reading = Return i.
Proof.
  destruct reading as [| | | | | |r]; try (left; reflexivity).
  unfold consumption_reading, injection_reading.
  destruct (dict_get r "v") as [val|]; [|left; reflexivity].
  destruct (py_eq_int (dict_get_default r "dc" (JInt 0)) 2) eqn:H2.
  - left. unfold dict_get_default in *.
    destruct (dict_get r "dc") as [dc|]; [|discriminate H2].
    destruct (py_eq_int dc 1) eqn:H1.
    + rewrite (py_eq_int_1_2_disjoint dc H1) in H2. discriminate.
    + destruct val; reflexivity.
  - right. destruct val; reflexivity.
Qed.

(** X3.  One day-bucket that is not a dict voids the whole payload: all
    three sensors report [None], whatever the other buckets hold. *)
Theorem malformed_day_voids_all_sensors (pre post : list json) (day : json) :
  (forall fields, day <> JDict fields) ->
  FluviusConsumptionSensor_native_value (JList (pre ++ day :: post)) = Return None /\
  FluviusInjectionSensor_native_value (JList (pre ++ day :: post)) = Return None /\
  FluviusNetSensor_native_value (JList (pre ++ day :: post)) = Return None.
Proof.
  intros Hday.
  assert (Hraise : forall S (body : S -> json -> outcome pyerr S) acc,
             exists e, sum_day body acc day = Raise e).
  { intros S body acc. unfold sum_day, day_readings.
    destruct day; simpl; eauto. exfalso. eapply Hday. reflexivity. }
  destruct (raising_sum_is_none (pre ++ day :: post) (app_cons_not_nil _ _ _))
    as (Hc & Hi & Hn).
  repeat split; [apply Hc | apply Hi | apply Hn];
    rewrite sum_days_list; apply for_each_raises_at; intros s; apply Hraise.
Qed.

(** X4.  A payload that cannot be iterated (a number, a boolean, [None])
    gives [None] on all three sensors. *)
Theorem non_iterable_payload_is_unset (data : json) (err : pyerr) :
  py_iter data = Raise err ->
  FluviusConsumptionSensor_native_value data = Return None /\
  FluviusInjectionSensor_native_value data = Return None /\
  FluviusNetSensor_native_value data = Return None.
Proof.
  intros Hit. destruct (truthy data) eqn:Ht.
  - unfold FluviusConsumptionSensor_native_value, FluviusInjectionSensor_native_value,
      FluviusNetSensor_native_value, sum_days.
    rewrite (py_or_truthy _ _ Ht), Ht, Hit. simpl. auto.
  - now apply native_value_unset_on_falsy.
Qed.

(** X5.  A reading whose value cannot be converted to a float voids the
    sensors that count it: with category code 1 the consumption and the net
    sensor report [None], with code 2 the injection and the net sensor do. *)
Theorem unconvertible_value_voids_its_sensors
        (dpre dpost rpre rpost : list json) (f r : list (string * json))
        (val : json) (err : pyerr) :
  dict_get f "v" = Some (JList (rpre ++ JDict r :: rpost)) ->
  dict_get r "v" = Some val ->
  val <> JNull ->
  py_float val = Raise err ->
  let payload := JList (dpre ++ JDict f :: dpost) in
  (py_eq_int (dict_get_default r "dc" (JInt 1)) 1 = true ->
   FluviusConsumptionSensor_native_value payload = Return None) /\
  (py_eq_int (dict_get_default r "dc" (JInt 0)) 2 = true ->
   FluviusInjectionSensor_native_value payload = Return None) /\
  (py_eq_int (dict_get_default r "dc" (JInt 0)) 1 = true \/
   py_eq_int (dict_get_default r "dc" (JInt 0)) 2 = true ->
   FluviusNetSensor_native_value payload = Return None).
Proof.
  intros Hf Hv Hnull Herr payload. subst payload.
  destruct (raising_sum_is_none (dpre ++ JDict f :: dpost) (app_cons_not_nil _ _ _))
    as (Hc & Hi & Hn).
  split; [|split].
  - intros Hdc. apply Hc. rewrite sum_days_list. apply for_each_raises_at.
    apply (sum_day_raises_at _ f rpre rpost (JDict r) Hf).
    intros s. unfold consumption_reading. rewrite Hv, Hdc, Herr.
    destruct val; try (eexists; reflexivity). congruence.
  - intros Hdc. apply Hi. rewrite sum_days_list. apply for_each_raises_at.
    apply (sum_day_raises_at _ f rpre rpost (JDict r) Hf).
    intros s. unfold injection_reading. rewrite Hv, Hdc, Herr.
    destruct val; try (eexists; reflexivity). congruence.
  - intros Hdc. apply Hn. rewrite sum_days_list. apply for_each_raises_at.
    apply (sum_day_raises_at _ f rpre rpost (JDict r) Hf).
    intros s. unfold net_reading. rewrite Hv, Herr.
    destruct Hdc as [Hdc|Hdc].
    + rewrite Hdc. destruct val; try (eexists; reflexivity). congruence.
    + rewrite Hdc.
      destruct (py_eq_int (dict_get_default r "dc" (JInt 0)) 1);
        destruct val; try (eexists; reflexivity); congruence.
Qed.
End SensorEdges.

Lemma sample_readings_have_dc : all_readings reading_has_dc sample_api_response.
Proof.
  intros days [= <-]. constructor; [|constructor].
  intros readings items [= <-] [= <-].
  constructor; [simpl; right; right; discriminate|].
  constructor; [simpl; right; right; discriminate|].
  constructor.
Qed.

Lemma net_matches_siblings_when_dc_present_witness :
  @FluviusConsumptionSensor_native_value no_numeric_text sample_api_response
  = Return (Some (round3 (0 + 1.5)%float)) /\
  @FluviusInjectionSensor_native_value no_numeric_text sample_api_response
  = Return (Some (round3 (0 + 0.6)%float)) /\
  @FluviusNetSensor_native_value no_numeric_text sample_api_response
  = Return (Some (round3 ((0 + 1.5) - (0 + 0.6))%float)).
Proof.
  exact (@net_matches_siblings_when_dc_present no_numeric_text sample_api_response
           (0 + 1.5)%float (0 + 0.6)%float
           sample_readings_have_dc eq_refl eq_refl eq_refl).
Defined.

Lemma malformed_day_voids_all_sensors_witness :
  @FluviusNetSensor_native_value no_numeric_text
     (JList ([JDict [("v", JList [JDict [("dc", JInt 1); ("v", JFloat 1.5%float)]])]]
               ++ JStr "oops" :: []))
  = Return None.
Proof.
  refine (proj2 (proj2 (@malformed_day_voids_all_sensors no_numeric_text _ [] (JStr "oops") _))).
  intros fields. discriminate.
Defined.

Lemma non_iterable_payload_is_unset_witness :
  @FluviusConsumptionSensor_native_value no_numeric_text (JInt 5) = Return None.
Proof.
  exact (proj1 (@non_iterable_payload_is_unset no_numeric_text (JInt 5) TypeError eq_refl)).
Defined.

Lemma unconvertible_value_voids_its_sensors_witness :
  @FluviusConsumptionSensor_native_value no_numeric_text
     (JList ([] ++ JDict [("v", JList ([] ++ JDict [("dc", JInt 1); ("v", JList [])] :: []))]
                :: []))
  = Return None.
Proof.
  refine (proj1 (@unconvertible_value_voids_its_sensors no_numeric_text
                   [] [] [] []
                   [("v", JList ([] ++ JDict [("dc", JInt 1); ("v", JList [])] :: []))]
                   [("dc", JInt 1); ("v", JList [])] (JList []) TypeError
                   eq_refl eq_refl _ eq_refl) eq_refl).
  discriminate.
Defined.

(** ** __init__.py: the scan of the captured requests *)

(** X6.  Whatever the browser session does, a token that
    [_fetch_bearer_token_sync] returns is not empty and begins with
    ["Bearer"]. *)
Theorem acquired_token_is_bearer
        (run : string -> string -> browser_run) (username password token : string) :
  _fetch_bearer_token_sync run username password = Some token ->
  prefix "Bearer" token = true /\ token <> "".
Proof.
  intros Hf. destruct (fetch_bearer_token_is_bearer run username password token Hf) as [Hp Ht].
  split; [exact Hp|]. intros ->. discriminate.
Qed.

Lemma acquired_token_is_bearer_witness :
  prefix "Bearer" "Bearer faketoken" = true /\ "Bearer faketoken" <> "".
Proof.
  exact (acquired_token_is_bearer (browser (test_world 200)) "user@example.com" "pass"
                                  "Bearer faketoken" eq_refl).
Defined.

(** X7.  The scan reads the captured requests in order and stops at the first
    match: over two batches it is the scan of the first batch, or else of the
    second; and requests that do not qualify can be dropped without changing
    its result. *)
Theorem scan_requests_in_order (batch1 batch2 : list captured_request) :
  scan_requests (batch1 ++ batch2)
  = match scan_requests batch1 with
    | Some token => Some token
    | None => scan_requests batch2
    end /\
  scan_requests (filter qualifies batch1) = scan_requests batch1.
Proof.
  split.
  - induction batch1 as [|r rest IH]; [reflexivity|].
    rewrite <- app_comm_cons, !scan_requests_cons.
    destruct (qualifies r) eqn:Hq; [|exact IH].
    destruct (qualifies_has_header r Hq) as (h & -> & _). reflexivity.
  - induction batch1 as [|r rest IH]; [reflexivity|].
    cbn [filter]. destruct (qualifies r) eqn:Hq.
    + rewrite !scan_requests_cons, Hq. reflexivity.
    + rewrite scan_requests_cons, Hq. exact IH.
Qed.

(** ** __init__.py: what a cycle does and leaves behind *)

Lemma as_update_failed_shape (err : exn) :
  (exists msg, as_update_failed err = UpdateFailed msg) \/
  (exists cls msg, err = BaseException cls msg /\ as_update_failed err = err).
Proof. destruct err; simpl; eauto. Qed.

Lemma fetch_with_token_last_data (w : world) (token : string) (self : FluviusCoordinator) :
  match res_outcome (fetch_with_token w token self) with
  | Return data => _last_data (res_self (fetch_with_token w token self)) = Some data
  | Raise _ => _last_data (res_self (fetch_with_token w token self)) = _last_data self
  end.
Proof.
  rewrite fetch_with_token_unfold.
  destruct (polling_window self w) as [window|e]; [|reflexivity].
  destruct (build_params self w (fst window) (snd window)) as [p|e]; [|reflexivity].
  cbv zeta.
  destruct (http_get w (build_request self token p)) as [r|e]; [|reflexivity].
  destruct (text r); [|reflexivity].
  destruct (status r =? 200).
  - destruct (resp_json r); reflexivity.
  - cbn [res_outcome res_self]. destruct (status r =? 401); reflexivity.
Qed.

(** X8.  Inside the [try] of [_async_update_data] every [Exception] is
    turned into [UpdateFailed]: a cycle returns a payload, raises
    [UpdateFailed], or lets through an exception that is not an [Exception]
    (such as [asyncio.CancelledError]); it never raises a plain
    [Exception]. *)
Theorem cycle_wraps_every_exception (w : world) (self : FluviusCoordinator) :
  ((exists data, res_outcome (_async_update_data w self) = Return data) \/
   (exists msg, res_outcome (_async_update_data w self) = Raise (UpdateFailed msg)) \/
   (exists cls msg, res_outcome (_async_update_data w self) = Raise (BaseException cls msg))) /\
  (forall cls msg, res_outcome (_async_update_data w self) <> Raise (Exception cls msg)).
Proof.
  rewrite update_data_unfold. cbv zeta.
  pose proof (token_step_summary w self) as Hsum. cbv zeta in Hsum.
  destruct Hsum as (_ & _ & Hsum).
  destruct (res_outcome (_async_get_bearer_token_if_needed w self)) as [token|e];
    cbn [res_outcome].
  - destruct (res_outcome (fetch_with_token w token _)) as [data|e];
      [split; [eauto | discriminate]|].
    destruct (as_update_failed_shape e) as [[msg ->] | (cls & msg & -> & ->)];
      (split; [eauto 6 | discriminate]).
  - destruct Hsum as (_ & _ & [msg ->] & _). simpl. split; [eauto | discriminate].
Qed.

(** X9.  The stored payload follows the outcome: a cycle that returns a
    payload has stored it in [_last_data]; a cycle that raises leaves
    [_last_data] as it was. *)
Theorem last_data_follows_outcome (w : world) (self : FluviusCoordinator) :
  match res_outcome (_async_update_data w self) with
  | Return data => _last_data (res_self (_async_update_data w self)) = Some data
  | Raise _ => _last_data (res_self (_async_update_data w self)) = _last_data self
  end.
Proof.
  rewrite update_data_unfold. cbv zeta.
  pose proof (token_step_summary w self) as Hsum. cbv zeta in Hsum.
  destruct Hsum as (_ & Hlast & _).
  destruct (res_outcome (_async_get_bearer_token_if_needed w self)) as [token|e];
    cbn [res_outcome res_self]; [|exact Hlast].
  pose proof (fetch_with_token_last_data w token
                (res_self (_async_get_bearer_token_if_needed w self))) as Hf.
  destruct (res_outcome (fetch_with_token w token _)); [exact Hf | congruence].
Qed.

(** X10.  The settings (name, credentials, EAN, meter id, base URL,
    granularity and window) are never changed by update cycles, however many
    run and whatever they meet. *)
Theorem cycles_keep_settings (ws : list world) (self : FluviusCoordinator) :
  same_settings self (run_cycles ws self).
Proof.
  revert self. induction ws as [|w ws IH]; intros self; cbn [run_cycles].
  - apply same_settings_refl.
  - eapply same_settings_trans; [apply update_data_settings | apply IH].
Qed.

(** What a cycle that issued a request went through. *)
Lemma cycle_request_inv (w : world) (self : FluviusCoordinator) (request : http_request) :
  In (EvGet request) (res_trace (_async_update_data w self)) ->
  exists token window p,
    res_outcome (_async_get_bearer_token_if_needed w self) = Return token /\
    polling_window (res_self (_async_get_bearer_token_if_needed w self)) w = Return window /\
    build_params (res_self (_async_get_bearer_token_if_needed w self)) w
                 (fst window) (snd window) = Return p /\
    request = build_request (res_self (_async_get_bearer_token_if_needed w self)) token p.
Proof.
  intros Hin. rewrite update_data_trace in Hin. cbv zeta in Hin.
  destruct (res_outcome (_async_get_bearer_token_if_needed w self)) as [token|e] eqn:Ho;
    [|exfalso; exact (token_step_no_get w self request Hin)].
  apply in_app_or in Hin. destruct Hin as [Hin|Hin];
    [exfalso; exact (token_step_no_get w self request Hin)|].
  rewrite fetch_with_token_trace in Hin.
  destruct (polling_window _ w) as [window|e] eqn:Hw; [|destruct Hin].
  destruct (build_params _ w (fst window) (snd window)) as [p|e] eqn:Hp; [|destruct Hin].
  destruct Hin as [[= <-]|[]].
  exists token, window, p. auto.
Qed.

(** X11.  A cycle that received a 200 response whose body parses returns the
    parsed payload, stores it in [_last_data] and keeps the token cached. *)
Theorem cycle_success_returns_payload
        (w : world) (self : FluviusCoordinator) (resp : http_response)
        (body : string) (data : json) :
  cycle_response w self resp ->
  text resp = Return body ->
  status resp = 200 ->
  resp_json resp = Return data ->
  let r := _async_update_data w self in
  res_outcome r = Return data /\
  _last_data (res_self r) = Some data /\
  exists token, _bearer_token (res_self r) = Some token /\ token <> "".
Proof.
  intros Hresp Hbody Hstatus Hjson r. subst r.
  destruct (cycle_response_inv w self resp Hresp) as (token & window & p & H).
  cbv zeta in H. destruct H as (Ho & Hw & Hp & Hget & _).
  pose proof (token_step_summary w self) as Hsum. cbv zeta in Hsum.
  destruct Hsum as (_ & _ & Hsum). rewrite Ho in Hsum. destruct Hsum as (Htok & Hne & _).
  rewrite update_data_unfold. cbv zeta. rewrite Ho.
  rewrite fetch_with_token_unfold, Hw, Hp. cbv zeta. rewrite Hget, Hbody, Hstatus, Hjson.
  cbn [Z.eqb Pos.eqb res_outcome res_self].
  split; [reflexivity|]. split; [reflexivity|].
  exists token. split; [exact Htok|]. intros ->. discriminate.
Qed.

Lemma cycle_success_returns_payload_witness :
  res_outcome (_async_update_data (test_world 200) test_coordinator) = Return sample_api_response.
Proof.
  exact (proj1 (cycle_success_returns_payload (test_world 200) test_coordinator _
                  "response body" sample_api_response
                  (cycle_response_test_world 200) eq_refl eq_refl eq_refl)).
Defined.

(** X12.  A cycle that received a 200 response whose body does not parse
    raises [UpdateFailed] with the parser's message (an exception of
    [resp.json()] that is not an [Exception] passes through as it is), keeps
    the token cached and leaves [_last_data] as it was. *)
Theorem invalid_json_keeps_token
        (w : world) (self : FluviusCoordinator) (resp : http_response)
        (body : string) (err : exn) :
  cycle_response w self resp ->
  text resp = Return body ->
  status resp = 200 ->
  resp_json resp = Raise err ->
  let r := _async_update_data w self in
  res_outcome r
  = Raise (if is_exception err
           then UpdateFailed ("Invalid JSON response: " ++ exn_str err)%string
           else err) /\
  _last_data (res_self r) = _last_data self /\
  exists token, _bearer_token (res_self r) = Some token /\ token <> "".
Proof.
  intros Hresp Hbody Hstatus Hjson r. subst r.
  destruct (cycle_response_inv w self resp Hresp) as (token & window & p & H).
  cbv zeta in H. destruct H as (Ho & Hw & Hp & Hget & _).
  pose proof (token_step_summary w self) as Hsum. cbv zeta in Hsum.
  destruct Hsum as (_ & Hlast & Hsum). rewrite Ho in Hsum. destruct Hsum as (Htok & Hne & _).
  rewrite update_data_unfold. cbv zeta. rewrite Ho.
  rewrite fetch_with_token_unfold, Hw, Hp. cbv zeta. rewrite Hget, Hbody, Hstatus, Hjson.
  cbn [Z.eqb Pos.eqb res_outcome res_self].
  split; [destruct err; reflexivity|]. split; [exact Hlast|].
  exists token. split; [exact Htok|]. intros ->. discriminate.
Qed.

(** A world whose API answers 200 with a body that is not JSON. *)
Lemma invalid_json_keeps_token_witness :
  let w := {| browser := browser (test_world 200);
              now := now (test_world 200);
              local_utcoffset := local_utcoffset (test_world 200);
              http_get := fun _ =>
                Return {| status := 200;
                          text := Return "<html>";
                          resp_json := Raise (Exception "JSONDecodeError" "Expecting value") |} |} in
  res_outcome (_async_update_data w test_coordinator)
  = Raise (UpdateFailed "Invalid JSON response: Expecting value").
Proof.
  intros w.
  refine (proj1 (invalid_json_keeps_token w test_coordinator
                   {| status := 200;
                      text := Return "<html>";
                      resp_json := Raise (Exception "JSONDecodeError" "Expecting value") |}
                   "<html>" (Exception "JSONDecodeError" "Expecting value")
                   _ eq_refl eq_refl eq_refl)).
  eexists. split; [|reflexivity].
  rewrite update_data_trace. cbv zeta.
  assert (Ht : _async_get_bearer_token_if_needed w test_coordinator
               = {| res_outcome := Return "Bearer faketoken";
                    res_self := res_self (_set_bearer_token (Some "Bearer faketoken")
                                                            test_coordinator);
                    res_trace := [EvAcquire "user@example.com" "pass"] |})
    by reflexivity.
  rewrite Ht. cbn [res_outcome res_self res_trace].
  rewrite fetch_with_token_trace.
  vm_compute. right. left. reflexivity.
Defined.

(** X13.  When [session.get] raises, or reading the body does, the cycle
    raises: an [UpdateFailed] as it is, any other [Exception] wrapped in an
    [UpdateFailed] with the text ["Error fetching Fluvius data: "], and an
    exception that is not an [Exception] (such as [asyncio.CancelledError])
    as it is.  In each case [_last_data] is unchanged and the token stays
    cached, whatever the status of the response. *)
Theorem transport_error_keeps_token
        (w : world) (self : FluviusCoordinator) (request : http_request) (err : exn) :
  In (EvGet request) (res_trace (_async_update_data w self)) ->
  (http_get w request = Raise err \/
   exists resp, http_get w request = Return resp /\ text resp = Raise err) ->
  let r := _async_update_data w self in
  res_outcome r = Raise (as_update_failed err) /\
  (forall cls msg, err = Exception cls msg ->
     res_outcome r = Raise (UpdateFailed ("Error fetching Fluvius data: " ++ msg)%string)) /\
  (forall cls msg, err = BaseException cls msg ->
     res_outcome r = Raise (BaseException cls msg)) /\
  _last_data (res_self r) = _last_data self /\
  exists token, _bearer_token (res_self r) = Some token /\ token <> "".
Proof.
  intros Hin Hfail r. subst r.
  destruct (cycle_request_inv w self request Hin) as (token & window & p & Ho & Hw & Hp & ->).
  pose proof (token_step_summary w self) as Hsum. cbv zeta in Hsum.
  destruct Hsum as (_ & Hlast & Hsum). rewrite Ho in Hsum. destruct Hsum as (Htok & Hne & _).
  assert (Hres : _async_update_data w self
                 = {| res_outcome := Raise (as_update_failed err);
                      res_self := res_self (_async_get_bearer_token_if_needed w self);
                      res_trace := res_trace (_async_get_bearer_token_if_needed w self)
                                   ++ [EvGet (build_request
                                                (res_self (_async_get_bearer_token_if_needed w self))
                                                token p)] |}).
  { rewrite update_data_unfold. cbv zeta. rewrite Ho.
    rewrite fetch_with_token_unfold, Hw, Hp. cbv zeta.
    destruct Hfail as [Hget | (resp & Hget & Htext)]; rewrite Hget; [reflexivity|].
    rewrite Htext. reflexivity. }
  rewrite Hres. cbn [res_outcome res_self].
  split; [reflexivity|]. split; [intros cls msg ->; reflexivity|].
  split; [intros cls msg ->; reflexivity|]. split; [exact Hlast|].
  exists token. split; [exact Htok|]. intros ->. discriminate.
Qed.

Lemma transport_error_keeps_token_witness :
  let w := {| browser := browser (test_world 200);
              now := now (test_world 200);
              local_utcoffset := local_utcoffset (test_world 200);
              http_get := fun _ => Raise (Exception "ClientError" "connection reset") |} in
  res_outcome (_async_update_data w test_coordinator)
  = Raise (UpdateFailed "Error fetching Fluvius data: connection reset").
Proof.
  intros w.
  assert (Hin : In (EvGet (build_request
                             (res_self (_set_bearer_token (Some "Bearer faketoken")
                                                          test_coordinator))
                             "Bearer faketoken"
                             {| historyFrom := {| wall_second := 1700000000; utc_offset := 3600 |};
                                historyUntil := {| wall_second := 1700003600; utc_offset := 3600 |};
                                param_granularity := "1";
                                asServiceProvider := "false";
                                meterSerialNumber := "1SAG1111111111" |}))
                   (res_trace (_async_update_data w test_coordinator)))
    by (vm_compute; right; left; reflexivity).
  exact (proj1 (transport_error_keeps_token w test_coordinator _
                  (Exception "ClientError" "connection reset") Hin (or_introl eq_refl))).
Defined.

(** X14.  A cycle runs the token acquisition at most once and issues at most
    one request, the acquisition first: there is no retry inside a cycle. *)
Theorem cycle_trace_shape (w : world) (self : FluviusCoordinator) :
  let trace := res_trace (_async_update_data w self) in
  let acquire := EvAcquire (the_str (_username self)) (the_str (_password self)) in
  trace = [] \/
  (exists request, trace = [EvGet request]) \/
  trace = [acquire] \/
  (exists request, trace = [acquire; EvGet request]).
Proof.
  cbv zeta. rewrite update_data_trace. cbv zeta.
  pose proof (token_step_summary w self) as Hsum. cbv zeta in Hsum.
  destruct Hsum as (_ & _ & Hsum).
  destruct (res_outcome (_async_get_bearer_token_if_needed w self)) as [token|e].
  - rewrite fetch_with_token_trace.
    destruct Hsum as (_ & _ & [(_ & _ & ->) | (_ & _ & _ & -> & _)]);
      destruct (polling_window _ w) as [window|e]; cbn [app]; auto;
      destruct (build_params _ w _ _) as [p|e]; cbn [app]; eauto 6.
  - destruct Hsum as (_ & _ & _ & [-> | ->]); auto.
Qed.

(** X15.  With a token in the cache the cycle does not run the acquisition:
    it issues at most its one request, which carries the cached token as
    [Authorization], and afterwards the cache holds the same token or, after
    a 401, nothing. *)
Theorem cached_token_is_reused (w : world) (self : FluviusCoordinator) :
  opt_truthy (_bearer_token self) = true ->
  let r := _async_update_data w self in
  (res_trace r = [] \/ exists request, res_trace r = [EvGet request]) /\
  (forall request,
      In (EvGet request) (res_trace r) ->
      headers_get (headers request) "Authorization" = _bearer_token self) /\
  (_bearer_token (res_self r) = _bearer_token self \/ _bearer_token (res_self r) = None).
Proof.
  intros Ht r. subst r.
  pose proof (token_step_cached w self Ht) as Hstep.
  destruct (opt_truthy_some _ Ht) as [Hsome _].
  split; [|split].
  - rewrite update_data_trace. cbv zeta. rewrite Hstep. cbn [res_outcome res_self res_trace app].
    rewrite fetch_with_token_trace.
    destruct (polling_window self w) as [window|e]; [|auto].
    destruct (build_params self w _ _) as [p|e]; eauto.
  - intros request Hin.
    destruct (cycle_request_inv w self request Hin) as (token & window & p & Ho & _ & _ & ->).
    rewrite Hstep in Ho. cbn [res_outcome] in Ho. injection Ho as <-.
    cbn [build_request headers]. rewrite headers_get_authorization. symmetry. exact Hsome.
  - rewrite update_data_unfold. cbv zeta. rewrite Hstep. cbn [res_outcome res_self].
    apply (fetch_with_token_self w (the_str (_bearer_token self)) self).
Qed.

Lemma cached_token_is_reused_witness :
  let self := res_self (_async_update_data (test_world 200) test_coordinator) in
  opt_truthy (_bearer_token self) = true /\
  (_bearer_token (res_self (_async_update_data (test_world 500) self)) = _bearer_token self \/
   _bearer_token (res_self (_async_update_data (test_world 500) self)) = None).
Proof.
  intros self.
  assert (Ht : opt_truthy (_bearer_token self) = true) by reflexivity.
  split; [exact Ht|].
  exact (proj2 (proj2 (cached_token_is_reused (test_world 500) self Ht))).
Defined.

(** X16.  With an empty cache and no username or no password, the cycle
    raises [UpdateFailed] at once: no acquisition, no request, and the
    coordinator is left as it was. *)
Theorem no_credentials_no_request (w : world) (self : FluviusCoordinator) :
  opt_truthy (_bearer_token self) = false ->
  opt_truthy (_username self) = false \/ opt_truthy (_password self) = false ->
  _async_update_data w self
  = {| res_outcome := Raise (UpdateFailed "No username/password configured to acquire token");
       res_self := self;
       res_trace := [] |}.
Proof.
  intros Ht Hc.
  assert (Hc' : opt_truthy (_username self) && opt_truthy (_password self) = false)
    by (destruct Hc as [-> | ->]; [reflexivity | apply andb_false_r]).
  rewrite update_data_unfold. cbv zeta.
  rewrite (token_step_no_credentials w self Ht Hc'). reflexivity.
Qed.

Lemma no_credentials_no_request_witness :
  res_trace (_async_update_data (test_world 200)
               (__init__ "test" (Some "user@example.com") None (Some "5414") None None None None 60))
  = [].
Proof.
  rewrite (no_credentials_no_request (test_world 200)
             (__init__ "test" (Some "user@example.com") None (Some "5414") None None None None 60)
             eq_refl (or_intror eq_refl)).
  reflexivity.
Defined.

(** X17.  When the acquisition yields no token, the cycle raises
    [UpdateFailed] after that one attempt: it is not retried, no request is
    issued and the coordinator is left as it was. *)
Theorem failed_acquisition_is_not_retried (w : world) (self : FluviusCoordinator) :
  opt_truthy (_bearer_token self) = false ->
  opt_truthy (_username self) = true ->
  opt_truthy (_password self) = true ->
  opt_truthy (_fetch_bearer_token_sync (browser w) (the_str (_username self))
                                       (the_str (_password self))) = false ->
  _async_update_data w self
  = {| res_outcome :=
         Raise (UpdateFailed "Failed to retrieve bearer token using provided credentials");
       res_self := self;
       res_trace := [EvAcquire (the_str (_username self)) (the_str (_password self))] |}.
Proof.
  intros Ht Hu Hp Hf.
  rewrite update_data_unfold. cbv zeta.
  pose proof (token_step_acquire w self Ht Hu Hp) as Hstep. cbv zeta in Hstep.
  rewrite Hf in Hstep. rewrite Hstep. reflexivity.
Qed.

Lemma failed_acquisition_is_not_retried_witness :
  let w := {| browser := fun _ _ => SessionRaised "TimeoutException" "login";
              now := now (test_world 200);
              local_utcoffset := local_utcoffset (test_world 200);
              http_get := http_get (test_world 200) |} in
  res_trace (_async_update_data w test_coordinator) = [EvAcquire "user@example.com" "pass"].
Proof.
  intros w.
  rewrite (failed_acquisition_is_not_retried w test_coordinator eq_refl eq_refl eq_refl eq_refl).
  reflexivity.
Defined.

Lemma update_data_token_is_bearer (w : world) (self : FluviusCoordinator) :
  token_is_bearer self -> token_is_bearer (res_self (_async_update_data w self)).
Proof.
  intros Hb. unfold token_is_bearer.
  rewrite update_data_unfold. cbv zeta.
  pose proof (token_step_summary w self) as Hsum. cbv zeta in Hsum.
  destruct Hsum as (_ & _ & Hsum).
  destruct (res_outcome (_async_get_bearer_token_if_needed w self)) as [token|e];
    cbn [res_self].
  - destruct (fetch_with_token_self w token
                (res_self (_async_get_bearer_token_if_needed w self))) as (_ & [Heq|Heq]);
      rewrite Heq; [|left; reflexivity].
    destruct Hsum as (Htok & _ & [(_ & Hself & _) | (_ & _ & _ & _ & Hf)]).
    + rewrite Hself. exact Hb.
    + right. exists token. split; [exact Htok|].
      exact (proj1 (fetch_bearer_token_is_bearer _ _ _ _ Hf)).
  - destruct Hsum as (-> & _). exact Hb.
Qed.

(** X18.  The token cache of a coordinator in use is empty or holds a text
    that begins with ["Bearer"]. *)
Theorem reachable_token_is_bearer (self : FluviusCoordinator) :
  reachable self -> token_is_bearer self.
Proof.
  induction 1 as [| self w _ IH].
  - left. reflexivity.
  - now apply update_data_token_is_bearer.
Qed.

Lemma reachable_token_is_bearer_witness :
  token_is_bearer (res_self (_async_update_data (test_world 200) test_coordinator)).
Proof.
  exact (reachable_token_is_bearer _ (reach_cycle test_coordinator (test_world 200)
                                                  reachable_test_coordinator)).
Defined.

(** X19.  Every request a cycle issues goes to
    [{api_base}/verbruik/api/meter-measurement-history/{ean}] with a timeout
    of 60, carries a non-empty token as [Authorization] together with the
    [Accept] and [User-Agent] headers, and has [granularity] set to the
    configured code, [asServiceProvider] to ["false"] and [meterSerialNumber]
    to the meter id (or [""]). *)
Theorem issued_request_shape (w : world) (self : FluviusCoordinator) (request : http_request) :
  In (EvGet request) (res_trace (_async_update_data w self)) ->
  url request
  = (api_base self ++ "/verbruik/api/meter-measurement-history/" ++ the_str (ean self))%string /\
  timeout request = 60 /\
  (exists token,
      token <> "" /\
      headers request = [("Authorization", token); ("Accept", "application/json");
                         ("User-Agent", "HomeAssistant/Integration")]) /\
  param_granularity (params request) = granularity self /\
  asServiceProvider (params request) = "false" /\
  meterSerialNumber (params request) = the_str (meter_id self).
Proof.
  intros Hin.
  destruct (update_data_request w self request Hin)
    as (token & since & until & p & Ho & _ & Hp & Hurl & Hparams & Hheaders & Htimeout).
  destruct (build_params_inv self w since until p Hp) as (_ & _ & Hg & Ha & Hm).
  pose proof (token_step_summary w self) as Hsum. cbv zeta in Hsum.
  destruct Hsum as (_ & _ & Hsum). rewrite Ho in Hsum. destruct Hsum as (_ & Hne & _).
  rewrite Hparams. repeat split; auto.
  exists token. split; [intros ->; discriminate | exact Hheaders].
Qed.

Lemma issued_request_shape_witness :
  exists request,
    In (EvGet request) (res_trace (_async_update_data (test_world 200) test_coordinator)) /\
    url request
    = "https://mijn.fluvius.be/verbruik/api/meter-measurement-history/5414XXXXXXXXXXXXX".
Proof.
  assert (Hin : In (EvGet (build_request
                             (res_self (_set_bearer_token (Some "Bearer faketoken")
                                                          test_coordinator))
                             "Bearer faketoken"
                             {| historyFrom := {| wall_second := 1700000000; utc_offset := 3600 |};
                                historyUntil := {| wall_second := 1700003600; utc_offset := 3600 |};
                                param_granularity := "1";
                                asServiceProvider := "false";
                                meterSerialNumber := "1SAG1111111111" |}))
                   (res_trace (_async_update_data (test_world 200) test_coordinator)))
    by (vm_compute; right; left; reflexivity).
  eexists. split; [exact Hin|].
  exact (proj1 (issued_request_shape (test_world 200) test_coordinator _ Hin)).
Defined.

Lemma leb_both (a b c : Z) : a <= b -> b <= c -> (a <=? b) && (b <=? c) = true.
Proof. intros Hab Hbc. apply andb_true_intro. split; apply Z.leb_le; assumption. Qed.

(** X20.  With a token in the cache, a window of 1 to 168 hours (the range
    the setup form allows), a clock between 1970 and the day before the end
    of year 9999 and a local zone strictly within a day of UTC, nothing
    overflows: the cycle issues exactly one request. *)
Theorem request_issued_in_configured_range (w : world) (self : FluviusCoordinator) :
  opt_truthy (_bearer_token self) = true ->
  1 <= time_window_hours self <= 168 ->
  0 <= now w <= datetime_max - microseconds_per_day ->
  (forall second, -86400 < local_utcoffset w second < 86400) ->
  exists request, res_trace (_async_update_data w self) = [EvGet request].
Proof.
  intros Ht Hh Hnow Hoff.
  rewrite update_data_trace. cbv zeta.
  rewrite (token_step_cached w self Ht). cbn [res_outcome res_self res_trace app].
  rewrite fetch_with_token_trace.
  unfold datetime_max, microseconds_per_day in Hnow.
  assert (Hw : polling_window self w
               = Return (now w - time_window_hours self * microseconds_per_hour, now w)).
  { unfold polling_window, timedelta_hours, datetime_sub,
      microseconds_per_hour, microseconds_per_day, max_delta_days, datetime_min, datetime_max.
    cbn [Z.opp].
    assert (Hdays : -999999999 <= time_window_hours self * 3600000000 / 86400000000 <= 999999999).
    { split.
      - apply Z.le_trans with 0; [lia|]. apply Z.div_pos; lia.
      - apply Z.lt_le_incl. apply Z.div_lt_upper_bound; lia. }
    rewrite (leb_both _ _ _ (proj1 Hdays) (proj2 Hdays)). cbn [bind].
    rewrite leb_both by lia. reflexivity. }
  rewrite Hw. cbn [fst snd].
  assert (Hfmt : forall dt, -604800000000 <= dt <= 253402214399999999 ->
                            exists s, fmt w dt = Return s).
  { intros dt Hdt. unfold fmt, datetime_min, datetime_max. cbv zeta.
    specialize (Hoff (dt / 1000000)).
    assert (Hin : (-86400 <? local_utcoffset w (dt / 1000000))
                  && (local_utcoffset w (dt / 1000000) <? 86400) = true)
      by (apply andb_true_intro; split; apply Z.ltb_lt; lia).
    rewrite Hin. rewrite leb_both by lia. eauto. }
  unfold build_params, microseconds_per_hour.
  destruct (Hfmt (now w - time_window_hours self * 3600000000)) as [from ->]; [lia|].
  destruct (Hfmt (now w)) as [to ->]; [lia|].
  cbn [bind]. eauto.
Qed.

Lemma request_issued_in_configured_range_witness :
  let self := res_self (_async_update_data (test_world 200) test_coordinator) in
  exists request, res_trace (_async_update_data (test_world 500) self) = [EvGet request].
Proof.
  intros self.
  apply (request_issued_in_configured_range (test_world 500) self eq_refl).
  - split; discriminate.
  - split; discriminate.
  - intros second. split; reflexivity.
Defined.

(** ** Strings *)

Lemma append_cancel_l (p a b : string) : (p ++ a)%string = (p ++ b)%string -> a = b.
Proof. induction p as [|c p IH]; simpl; [auto|]. intros [= Heq]. auto. Qed.

Lemma length_app (a b : string) :
  String.length (a ++ b)%string = (String.length a + String.length b)%nat.
Proof. induction a as [|c a IH]; simpl; [reflexivity|]. now rewrite IH. Qed.

Lemma append_cancel_r (a b s : string) : (a ++ s)%string = (b ++ s)%string -> a = b.
Proof.
  revert b. induction a as [|c a IH]; intros b Heq.
  - destruct b as [|d b]; [reflexivity|]. exfalso.
    apply (f_equal String.length) in Heq. simpl in Heq. rewrite length_app in Heq. lia.
  - destruct b as [|d b].
    + exfalso. apply (f_equal String.length) in Heq. simpl in Heq.
      rewrite length_app in Heq. lia.
    + simpl in Heq. injection Heq as -> Heq. f_equal. now apply IH.
Qed.

Lemma rstrip_by_decompose (strip_it : ascii -> bool) (s : string) :
  exists tail,
    s = (rstrip_by strip_it s ++ tail)%string /\
    (forall c, In c (list_ascii_of_string tail) -> strip_it c = true).
Proof.
  induction s as [|c s (tail & Heq & Htail)].
  - exists "". split; [reflexivity | intros c []].
  - cbn [rstrip_by]. destruct (rstrip_by strip_it s) as [|d t] eqn:Hr.
    + destruct (strip_it c) eqn:Hc.
      * exists (String c tail). simpl in Heq. subst tail. split; [reflexivity|].
        intros x [<-|Hin]; [exact Hc | now apply Htail].
      * exists tail. split; [simpl in *; now rewrite <- Heq | exact Htail].
    + exists tail. split; [simpl in *; now rewrite <- Heq | exact Htail].
Qed.

Lemma all_slashes (tail : string) :
  (forall c, In c (list_ascii_of_string tail) -> Ascii.eqb c slash = true) ->
  tail = slashes (String.length tail).
Proof.
  induction tail as [|c t IH]; intros Hall; [reflexivity|].
  simpl. rewrite <- IH by (intros x Hx; apply Hall; right; exact Hx).
  f_equal. apply Ascii.eqb_eq. apply Hall. left. reflexivity.
Qed.

Lemma lstrip_by_first (strip_it : ascii -> bool) (s : string) :
  match lstrip_by strip_it s with
  | EmptyString => True
  | String c _ => strip_it c = false
  end.
Proof.
  induction s as [|c s IH]; simpl; [exact I|].
  destruct (strip_it c) eqn:Hc; [exact IH | exact Hc].
Qed.

Lemma strip_idempotent (s : string) : strip (strip s) = strip s.
Proof.
  unfold strip.
  pose proof (lstrip_by_first is_space s) as Hfirst.
  destruct (lstrip_by is_space s) as [|c t] eqn:Hl; [reflexivity|].
  assert (Hr : exists t', rstrip_by is_space (String c t) = String c t').
  { cbn [rstrip_by]. destruct (rstrip_by is_space t); [rewrite Hfirst|]; eauto. }
  destruct Hr as [t' Hr]. rewrite Hr.
  cbn [lstrip_by]. rewrite Hfirst. rewrite <- Hr. apply rstrip_by_idempotent.
Qed.

(** ** __init__.py: the constructor and the first cycle *)

(** X21.  [__init__] only removes trailing slashes from the base it chose:
    the chosen base is the stored base followed by slashes, and storing the
    stored base again changes nothing. *)
Theorem api_base_strips_only_slashes
        (name : string) (username password ean meter_id base granularity : option string)
        (twh : option Z) (interval : Z) :
  let stored :=
    api_base (__init__ name username password ean meter_id base granularity twh interval) in
  (exists n, str_or base "https://mijn.fluvius.be" = (stored ++ slashes n)%string) /\
  rstrip_slash stored = stored.
Proof.
  cbv zeta. cbn [api_base __init__]. unfold rstrip_slash. split.
  - destruct (rstrip_by_decompose (fun c => Ascii.eqb c slash)
                                  (str_or base "https://mijn.fluvius.be")) as (tail & Heq & Htail).
    exists (String.length tail). rewrite <- (all_slashes tail Htail). exact Heq.
  - apply rstrip_by_idempotent.
Qed.

(** X22.  A coordinator fresh from [__init__] with a username and a password
    has no token, so its first cycle starts with the token acquisition, run
    with those credentials. *)
Theorem first_cycle_acquires
        (w : world) (name u p : string) (ean meter_id base granularity : option string)
        (twh : option Z) (interval : Z) :
  u <> "" -> p <> "" ->
  exists rest,
    res_trace (_async_update_data w
                 (__init__ name (Some u) (Some p) ean meter_id base granularity twh interval))
    = EvAcquire u p :: rest.
Proof.
  intros Hu Hp.
  assert (Hu' : str_truthy u = true) by (destruct u; [congruence | reflexivity]).
  assert (Hp' : str_truthy p = true) by (destruct p; [congruence | reflexivity]).
  set (self := __init__ name (Some u) (Some p) ean meter_id base granularity twh interval).
  pose proof (token_step_acquire w self eq_refl Hu' Hp') as Hstep. cbv zeta in Hstep.
  rewrite update_data_trace. cbv zeta. rewrite Hstep.
  destruct (opt_truthy (_fetch_bearer_token_sync (browser w) _ _));
    cbn [res_outcome res_trace app]; eauto.
Qed.

Lemma first_cycle_acquires_witness :
  exists rest,
    res_trace (_async_update_data (test_world 200) test_coordinator)
    = EvAcquire "user@example.com" "pass" :: rest.
Proof.
  apply (first_cycle_acquires (test_world 200) "test" "user@example.com" "pass");
    discriminate.
Defined.

(** ** sensor.py: the entities *)

(** X23.  The three entities of a coordinator are named after the entry
    (["... Consumption"], ["... Injection"], ["... Net"]) and have pairwise
    different unique ids; and for one kind, two different non-empty meter ids
    give two different unique ids. *)
Theorem sensor_ids_distinct (coordinator : FluviusCoordinator) (entry_name : option string) :
  let sensors := sensor_async_setup_entry coordinator entry_name in
  let name := match entry_name with Some n => n | None => "Fluvius Electricity" end in
  map _attr_name sensors
  = [(name ++ " Consumption")%string; (name ++ " Injection")%string; (name ++ " Net")%string] /\
  NoDup (map _attr_unique_id sensors) /\
  NoDup (map _attr_name sensors) /\
  (forall other sensor_name k,
      opt_truthy (meter_id coordinator) = true ->
      opt_truthy (meter_id other) = true ->
      meter_id coordinator <> meter_id other ->
      _attr_unique_id (FluviusBaseEnergySensor__init__ coordinator sensor_name k)
      <> _attr_unique_id (FluviusBaseEnergySensor__init__ other sensor_name k)).
Proof.
  cbv zeta. split; [reflexivity|]. split; [|split].
  - cbn [map sensor_async_setup_entry FluviusBaseEnergySensor__init__ _attr_unique_id].
    repeat constructor; cbn [In]; intros Hin;
      repeat (destruct Hin as [Hin|Hin];
              [apply append_cancel_l in Hin; apply append_cancel_l in Hin; discriminate Hin|]);
      exact Hin.
  - cbn [map sensor_async_setup_entry FluviusBaseEnergySensor__init__ _attr_name].
    repeat constructor; cbn [In]; intros Hin;
      repeat (destruct Hin as [Hin|Hin];
              [apply append_cancel_l in Hin; discriminate Hin|]);
      exact Hin.
  - intros other sensor_name k Hm Ho Hne Heq.
    cbn [FluviusBaseEnergySensor__init__ _attr_unique_id] in Heq.
    apply append_cancel_l in Heq. apply append_cancel_r in Heq.
    destruct (opt_truthy_some _ Hm) as [Hsm Htm]. destruct (opt_truthy_some _ Ho) as [Hso Hto].
    apply Hne. rewrite Hsm, Hso. f_equal.
    unfold str_or in Heq. rewrite Hsm, Hso in Heq. cbn [the_str] in *.
    rewrite Htm, Hto in Heq. exact Heq.
Qed.

Lemma sensor_ids_distinct_witness :
  _attr_unique_id (FluviusBaseEnergySensor__init__ test_coordinator "Fluvius" "net")
  <> _attr_unique_id
       (FluviusBaseEnergySensor__init__
          (__init__ "other" None None None (Some "1SAG2222222222") None None None 60)
          "Fluvius" "net").
Proof.
  apply (proj2 (proj2 (proj2 (sensor_ids_distinct test_coordinator None)))).
  - reflexivity.
  - reflexivity.
  - discriminate.
Defined.

(** ** config_flow.py *)

(** X24.  A form without an EAN (absent, empty or blank) is sent back with
    the error [missing_ean] in every world: the browser session and the API
    play no part. *)
Theorem missing_ean_is_rejected (w : world) (ui : user_input) :
  strip (str_or (ui_ean ui) "") = "" ->
  async_step_user w (Some ui) = Return (ShowForm "user" [("base", "missing_ean")]).
Proof. intros Hean. unfold async_step_user. rewrite Hean. reflexivity. Qed.

Lemma missing_ean_is_rejected_witness :
  async_step_user (test_world 200)
    (Some {| ui_name := None; ui_username := Some "user@example.com"; ui_password := Some "pass";
             ui_ean := Some "   "; ui_meter_id := None; ui_api_base := None;
             ui_granularity := None; ui_time_window_hours := None |})
  = Return (ShowForm "user" [("base", "missing_ean")]).
Proof.
  apply (missing_ean_is_rejected (test_world 200)). reflexivity.
Defined.

Lemma label_to_key_valid (label key : string) :
  str_dict_get _LABEL_TO_KEY label = Some key -> In (key, label) GRANULARITY_CHOICES.
Proof.
  unfold _LABEL_TO_KEY, GRANULARITY_CHOICES. cbn [map fst snd str_dict_get In].
  destruct (String.eqb_spec "15 minutes" label) as [<-|_]; [intros [= <-]; auto|].
  destruct (String.eqb_spec "30 minutes" label) as [<-|_]; [intros [= <-]; auto|].
  destruct (String.eqb_spec "Daily (per day)" label) as [<-|_]; [intros [= <-]; auto 6|].
  discriminate.
Qed.

Lemma label_to_key_round_trip (label key : string) :
  In (key, label) GRANULARITY_CHOICES -> str_dict_get _LABEL_TO_KEY label = Some key.
Proof.
  intros [[= <- <-]|[[= <- <-]|[[= <- <-]|[]]]]; reflexivity.
Qed.

(** X25.  The entry the config flow creates is well formed: its name is the
    title, stored as entered; its EAN is not empty; its username, password,
    EAN, meter id and base URL carry no surrounding white space; its
    granularity is one of the codes ["1"], ["2"], ["3"] (the code of the
    chosen label when the label is one of the choices) and its window is the
    one entered, or 24 when none was. *)
Theorem created_entry_is_well_formed
        (w : world) (ui : user_input) (title : string) (data : list (string * conf_value)) :
  async_step_user w (Some ui) = Return (CreateEntry title data) ->
  (conf_get data "name" = Some (CStr title) /\
   title = match ui_name ui with Some n => n | None => "Fluvius Electricity" end) /\
  (exists ean, conf_get data "ean" = Some (CStr ean) /\ ean <> "" /\ strip ean = ean) /\
  (exists username password meter base,
      conf_get data "username" = Some (CStr username) /\ strip username = username /\
      conf_get data "password" = Some (CStr password) /\ strip password = password /\
      conf_get data "meter_id" = Some (CStr meter) /\ strip meter = meter /\
      conf_get data "api_base" = Some (CStr base) /\ strip base = base) /\
  (exists code,
      conf_get data "granularity" = Some (CStr code) /\
      In code (map fst GRANULARITY_CHOICES) /\
      (forall label, ui_granularity ui = Some label ->
                     In (code, label) GRANULARITY_CHOICES \/
                     (code = "1" /\ ~ In label (map snd GRANULARITY_CHOICES)))) /\
  conf_get data "time_window_hours"
  = Some (CInt match ui_time_window_hours ui with Some z => z | None => 24 end).
Proof.
  intros Hrun.
  assert (Hean : str_truthy (strip (str_or (ui_ean ui) "")) = true).
  { unfold async_step_user in Hrun.
    destruct (str_truthy (strip (str_or (ui_ean ui) ""))); [reflexivity | discriminate]. }
  apply async_step_user_entry in Hrun. destruct Hrun as (ui' & [= <-] & Htitle & ->).
  split; [split; [reflexivity | exact Htitle]|].
  split; [|split; [|split]].
  - eexists. split; [reflexivity|]. split; [|apply strip_idempotent].
    intros Heq. rewrite Heq in Hean. discriminate.
  - do 4 eexists. repeat split; try reflexivity; apply strip_idempotent.
  - eexists. split; [reflexivity|].
    destruct (ui_granularity ui) as [label|]; [|split; [left; reflexivity | discriminate]].
    destruct (str_dict_get _LABEL_TO_KEY label) as [key|] eqn:Hk.
    + pose proof (label_to_key_valid label key Hk) as Hin.
      split; [apply (in_map fst) in Hin; exact Hin|].
      intros l [= <-]. left. exact Hin.
    + split; [left; reflexivity|].
      intros l [= <-]. right. split; [reflexivity|].
      intros Hin. apply in_map_iff in Hin. destruct Hin as ([k l'] & Hl & Hin).
      cbn [snd] in Hl. subst l'. apply label_to_key_round_trip in Hin. congruence.
  - reflexivity.
Qed.

Lemma created_entry_is_well_formed_witness :
  conf_get (entry_data "Fluvius Electricity" "user@example.com" "pass" "5414XXXXXXXXXXXXX"
                       "1SAG1111111111" "https://mijn.fluvius.be" "1" 1)
           "time_window_hours"
  = Some (CInt 1).
Proof.
  exact (proj2 (proj2 (proj2 (proj2 (created_entry_is_well_formed
                                       (test_world 200) test_user_input _ _ eq_refl))))).
Defined.

Lemma validate_token_true (w : world) (token ean base : string) :
  _validate_token w token ean base = Return true ->
  strip token <> "" /\
  exists request resp data,
    http_get w request = Return resp /\
    status resp = 200 /\
    resp_json resp = Return data /\
    url request
    = (rstrip_slash base ++ "/verbruik/api/meter-measurement-history/" ++ ean)%string /\
    headers_get (headers request) "Authorization" = Some token /\
    timeout request = 15.
Proof.
  unfold _validate_token.
  destruct (str_truthy token) eqn:Ht; [|discriminate]. cbn [negb orb].
  destruct (str_truthy (strip token)) eqn:Hs; [|discriminate]. cbn [negb].
  destruct (timedelta_hours 1) as [delta|e]; [|discriminate]. cbn [bind].
  destruct (datetime_sub (now w) delta) as [since|e]; [|discriminate]. cbn [bind].
  destruct (fmt w since) as [from|e]; [|discriminate]. cbn [bind].
  destruct (fmt w (now w)) as [to|e]; [|discriminate]. cbn [bind].
  match goal with
  | |- context [http_get w ?rq] => set (request := rq)
  end.
  destruct (http_get w request) as [resp|e] eqn:Hget;
    [|destruct (is_exception e); discriminate].
  destruct (status resp =? 200) eqn:Hst; [|discriminate]. cbn [negb].
  destruct (resp_json resp) as [data|e] eqn:Hj;
    [|destruct (is_exception e); discriminate].
  intros _. split; [intros Heq; rewrite Heq in Hs; discriminate|].
  exists request, resp, data. apply Z.eqb_eq in Hst.
  repeat split; auto.
Qed.

(** X26.  [_validate_token] rejects an empty or blank token in every world,
    and answers [True] only when the API answered a request carrying that
    token as [Authorization] with status 200 and a body that parses. *)
Theorem validate_token_means_api_accepted (w : world) (token ean base : string) :
  (strip token = "" -> _validate_token w token ean base = Return false) /\
  (_validate_token w token ean base = Return true ->
   exists request resp data,
     http_get w request = Return resp /\
     status resp = 200 /\
     resp_json resp = Return data /\
     url request
     = (rstrip_slash base ++ "/verbruik/api/meter-measurement-history/" ++ ean)%string /\
     headers_get (headers request) "Authorization" = Some token /\
     timeout request = 15).
Proof.
  split.
  - intros Hs. unfold _validate_token. rewrite Hs. cbn [str_truthy negb].
    now rewrite orb_true_r.
  - intros Hv. exact (proj2 (validate_token_true w token ean base Hv)).
Qed.

Lemma validate_token_means_api_accepted_witness :
  _validate_token (test_world 200) "   " "5414XXXXXXXXXXXXX" "https://mijn.fluvius.be"
  = Return false.
Proof.
  apply (proj1 (validate_token_means_api_accepted (test_world 200) "   " _ _)).
  reflexivity.
Defined.

(** X27.  An entry is created only after a token was acquired with the
    entered credentials and the API accepted it; without a token the form
    comes back with [invalid_credentials_or_2fa], with a token the API does
    not accept it comes back with [invalid_credentials_or_token]. *)
Theorem entry_requires_validated_token (w : world) (ui : user_input) :
  let username := strip (str_or (ui_username ui) "") in
  let password := strip (str_or (ui_password ui) "") in
  let ean := strip (str_or (ui_ean ui) "") in
  let base := strip (str_or (ui_api_base ui) "https://mijn.fluvius.be") in
  let token := _fetch_bearer_token_sync (browser w) username password in
  ean <> "" ->
  (opt_truthy token = false ->
   async_step_user w (Some ui)
   = Return (ShowForm "user" [("base", "invalid_credentials_or_2fa")])) /\
  (opt_truthy token = true ->
   _validate_token w (the_str token) ean base = Return false ->
   async_step_user w (Some ui)
   = Return (ShowForm "user" [("base", "invalid_credentials_or_token")])) /\
  (forall title data,
      async_step_user w (Some ui) = Return (CreateEntry title data) ->
      exists t, token = Some t /\ _validate_token w t ean base = Return true).
Proof.
  intros username password ean base token Hean.
  assert (Ht : str_truthy ean = true) by (destruct ean; [congruence | reflexivity]).
  unfold async_step_user. fold username password ean base token. rewrite Ht. cbn [negb].
  split; [|split].
  - intros ->. reflexivity.
  - intros -> ->. reflexivity.
  - intros title data.
    destruct (opt_truthy token) eqn:Htok; cbn [negb]; [|discriminate].
    destruct (opt_truthy_some _ Htok) as [Hsome _].
    destruct (_validate_token w (the_str token) ean base) as [[|]|e] eqn:Hv;
      cbn [bind negb]; try discriminate.
    intros _. exists (the_str token). auto.
Qed.

Lemma entry_requires_validated_token_witness :
  async_step_user (test_world 500) (Some test_user_input)
  = Return (ShowForm "user" [("base", "invalid_credentials_or_token")]).
Proof.
  refine (proj1 (proj2 (entry_requires_validated_token (test_world 500) test_user_input _))
                eq_refl eq_refl).
  discriminate.
Defined.
